(** * Common webhook client of the Eliza agent: verification development

    Shallow embedding of
    - [packages/client-common/src/schemas.ts]  (the zod schemas),
    - [packages/client-common/src/index.ts]    ([CommonClient]: webhook
      verification and event normalisation),
    - [packages/client-common/src/messages.ts] ([MessageManager]: identity
      derivation, response decision, orchestration).

    JavaScript values are modelled as the code meets them: strings as
    [string], the numeric ids of Common as [Z], [undefined]/[null] as [None],
    exceptions as the [Throw] branch of a result type, and every call that
    leaves the process (logger, runtime, language model, Common API, fetch)
    as an entry of a chronological call trace. *)

From stdpp Require Import gmap strings list.
From Stdlib Require Import ZArith String Ascii List Lia DecimalString DecimalZ
  DecimalPos.
Import ListNotations.

Local Open Scope string_scope.
Local Open Scope Z_scope.

(* ===================================================================== *)
(** * JavaScript primitives used by the client *)
(* ===================================================================== *)

Module JS.

(** [Number.prototype.toString()] on an integer id: decimal digits, with a
    leading minus sign below zero. *)
Definition Number_toString (n : Z) : string :=
  NilZero.string_of_int (Z.to_int n).

(** [String.prototype.includes(sub)]. *)
Fixpoint includes (s sub : string) : bool :=
  String.prefix sub s
  || match s with
     | EmptyString => false
     | String _ s' => includes s' sub
     end.

(** [String.prototype.split(sep)] for a one-character separator. *)
Fixpoint split (sep : ascii) (s : string) : list string :=
  match s with
  | EmptyString => [EmptyString]
  | String c s' =>
      if Ascii.eqb c sep then EmptyString :: split sep s'
      else match split sep s' with
           | h :: t => String c h :: t
           | [] => [String c EmptyString]
           end
  end.

(** [String.prototype.substring(n)]: the string without its first [n]
    characters (empty when it has fewer). *)
Fixpoint substring (n : nat) (s : string) : string :=
  match n, s with
  | O, _ => s
  | S _, EmptyString => EmptyString
  | S n', String _ s' => substring n' s'
  end.

(** [String.prototype.length] of the JavaScript string whose UTF-8 encoding
    the [string] holds. It counts UTF-16 code units: a character encoded in
    one, two or three bytes is one unit, and a character encoded in four
    bytes is a surrogate pair, two units. *)
Definition continuation (c : ascii) : bool :=
  match c with Ascii _ _ _ _ _ _ b6 b7 => b7 && negb b6 end.

Definition lead4 (c : ascii) : bool :=
  match c with Ascii _ _ _ _ b4 b5 b6 b7 => b7 && b6 && b5 && b4 end.

(** The lead byte of a four-byte character and the byte after it stand for
    the two units of the pair; continuation bytes count for nothing. *)
Fixpoint length (s : string) : nat :=
  match s with
  | EmptyString => O
  | String c s' =>
      if continuation c then length s'
      else if lead4 c then
        match s' with
        | EmptyString => 1%nat
        | String _ s'' => S (S (length s''))
        end
      else S (length s')
  end.

(** Truthiness of an optional string ([undefined], [null] and [""] are
    falsy) and of an optional number ([undefined] and [0] are falsy). *)
Definition truthy_string (o : option string) : bool :=
  match o with
  | Some s => negb (String.eqb s "")
  | None => false
  end.

Definition truthy_number (o : option Z) : bool :=
  match o with
  | Some n => negb (n =? 0)
  | None => false
  end.

(** [a || b] on an optional number and a number. *)
Definition or_number (a : option Z) (b : Z) : Z :=
  match a with
  | Some n => if n =? 0 then b else n
  | None => b
  end.

(** [a || b] on an optional string and a string. *)
Definition or_string (a : option string) (b : string) : string :=
  match a with
  | Some s => if String.eqb s "" then b else s
  | None => b
  end.

(** Exceptions the code can raise. *)
Inductive Error :=
| TypeError (msg : string)
| RangeError (msg : string).

End JS.

(* ===================================================================== *)
(** * Results, call traces and the effect monad *)
(* ===================================================================== *)

(** A JavaScript computation returns a value or throws (for an [async]
    function: resolves or rejects). *)
Inductive Result (A : Type) : Type :=
| Ok (a : A)
| Throw (e : JS.Error).
Arguments Ok {A} a.
Arguments Throw {A} e.

(** [M C A]: a computation that performs the external calls listed in its
    trace, oldest first, and then returns or throws. *)
Definition M (C A : Type) : Type := (list C * Result A)%type.

Definition ret {C A} (a : A) : M C A := ([], Ok a).

Definition throw {C A} (e : JS.Error) : M C A := ([], Throw e).

Definition bind {C A B} (m : M C A) (k : A -> M C B) : M C B :=
  match m with
  | (t, Ok a) => let '(t', r) := k a in ((t ++ t')%list, r)
  | (t, Throw e) => (t, Throw e)
  end.

(** An external call: it is recorded, and its outcome is the collaborator's. *)
Definition call {C A} (c : C) (outcome : Result A) : M C A := ([c], outcome).

(** [await] on a promise whose outcome is known, or any step that may
    throw without calling out. *)
Definition await {C A} (outcome : Result A) : M C A := ([], outcome).

(** [try { m } catch (error) { handler }]. *)
Definition try_catch {C A} (m : M C A) (handler : JS.Error -> M C A) : M C A :=
  match m with
  | (t, Ok a) => (t, Ok a)
  | (t, Throw e) => let '(t', r) := handler e in ((t ++ t')%list, r)
  end.

Definition trace {C A} (m : M C A) : list C := fst m.
Definition result {C A} (m : M C A) : Result A := snd m.

Declare Scope js_scope.
Delimit Scope js_scope with js.
Notation "'let*' x ':=' m 'in' k" := (bind m (fun x => k))
  (at level 10, x pattern, m at level 100, k at level 200) : js_scope.
Notation "m ;;; k" := (bind m (fun _ => k))
  (at level 100, k at level 200, right associativity) : js_scope.
Local Open Scope js_scope.

(* ===================================================================== *)
(** * schemas.ts *)
(* ===================================================================== *)

(** A parsed JSON document. Numbers are the integer ids Common sends;
    an object lists each key once, as [JSON.parse] leaves it. *)
#[warnings="-register-all"]
Inductive Json :=
| JNull
| JBool (b : bool)
| JNum (n : Z)
| JStr (s : string)
| JArr (xs : list Json)
| JObj (fields : list (string * Json)).

(** What [req.body] can hold when a handler runs: nothing, the raw bytes
    (what [raw()] stores when it is the parser that reads the body), or the
    document [express.json()] parsed. *)
Inductive JsValue :=
| JsUndefined
| JsBuffer (bytes : string)
| JsJson (j : Json).

Fixpoint get (k : string) (o : list (string * Json)) : option Json :=
  match o with
  | [] => None
  | (k', v) :: o' => if String.eqb k k' then Some v else get k o'
  end.

Definition has_key (k : string) (o : list (string * Json)) : bool :=
  match get k o with Some _ => true | None => false end.

(** [ToString] as a template literal applies it. An array joins its
    elements; a plain object prints through [Object.prototype.toString]
    unless an own, never callable, "toString" member hides it, in which case
    the conversion throws. *)
Fixpoint ToString_json (j : Json) : Result string :=
  match j with
  | JNull => Ok "null"
  | JBool b => Ok (if b then "true" else "false")
  | JNum n => Ok (JS.Number_toString n)
  | JStr s => Ok s
  | JObj o =>
      if has_key "toString" o
      then Throw (JS.TypeError "Cannot convert object to primitive value")
      else Ok "[object Object]"
  | JArr xs =>
      (fix join (l : list Json) : Result string :=
         match l with
         | [] => Ok ""
         | x :: rest =>
             let elem := match x with JNull => Ok "" | _ => ToString_json x end in
             match elem, rest with
             | Throw e, _ => Throw e
             | Ok a, [] => Ok a
             | Ok a, _ :: _ =>
                 match join rest with
                 | Ok b => Ok (a ++ "," ++ b)
                 | Throw e => Throw e
                 end
             end
         end) xs
  end.

Definition ToString (v : JsValue) : Result string :=
  match v with
  | JsUndefined => Ok "undefined"
  | JsBuffer bytes => Ok bytes
  | JsJson j => ToString_json j
  end.

Inductive ContentType := thread | comment.

Definition ContentType_toString (c : ContentType) : string :=
  match c with thread => "thread" | comment => "comment" end.

(** [z.infer<typeof AgentMentionedSchema>]. [content_url] is nullish:
    [None] stands for both [undefined] and [null]. *)
Record AgentMentioned := {
  community_id : string;
  profile_name : string;
  profile_url : string;
  thread_title : string;
  object_url : string;
  object_summary : string;
  content_url : option string;
  content_type : ContentType;
  thread_id : Z;
  comment_id : option Z;
  author_user_id : Z;
}.

(** [AugmentedAgentMentionedSchema]: the event extended with its full text
    (the object [{...req.body, full_object_text: content}]). *)
Record AugmentedAgentMentioned := {
  event :> AgentMentioned;
  full_object_text : string;
}.

Module Zod.

Definition string_ (v : option Json) : option string :=
  match v with Some (JStr s) => Some s | _ => None end.

(** [z.string().max(n)]: a string of at most [n] UTF-16 code units. *)
Definition string_max (n : nat) (v : option Json) : option string :=
  match string_ v with
  | Some s => if (JS.length s <=? n)%nat then Some s else None
  | None => None
  end.

Definition number (v : option Json) : option Z :=
  match v with Some (JNum n) => Some n | _ => None end.

(** [.optional()]: a missing key is accepted. *)
Definition optional {A} (p : option Json -> option A) (v : option Json)
  : option (option A) :=
  match v with
  | None => Some None
  | Some _ => match p v with Some a => Some (Some a) | None => None end
  end.

(** [.nullish()]: a missing key and [null] are accepted. *)
Definition nullish {A} (p : option Json -> option A) (v : option Json)
  : option (option A) :=
  match v with
  | None | Some JNull => Some None
  | Some _ => match p v with Some a => Some (Some a) | None => None end
  end.

(** [z.union([z.literal("thread"), z.literal("comment")])]. *)
Definition content_type_ (v : option Json) : option ContentType :=
  match string_ v with
  | Some s =>
      if String.eqb s "thread" then Some thread
      else if String.eqb s "comment" then Some comment
      else None
  | None => None
  end.

End Zod.

(** [AgentMentionedSchema.safeParse]: [Some] is [success: true] with the
    parsed data (unknown keys stripped), [None] is [success: false]. *)
Definition AgentMentionedSchema_safeParse (v : JsValue) : option AgentMentioned :=
  match v with
  | JsJson (JObj o) =>
      match Zod.string_max 255 (get "community_id" o),
            Zod.string_max 255 (get "profile_name" o),
            Zod.string_ (get "profile_url" o),
            Zod.string_ (get "thread_title" o),
            Zod.string_ (get "object_url" o),
            Zod.string_ (get "object_summary" o) with
      | Some cid, Some pname, Some purl, Some title, Some ourl, Some summary =>
          match Zod.nullish Zod.string_ (get "content_url" o),
                Zod.content_type_ (get "content_type" o),
                Zod.number (get "thread_id" o),
                Zod.optional Zod.number (get "comment_id" o),
                Zod.number (get "author_user_id" o) with
          | Some cu, Some ct, Some tid, Some cmid, Some au =>
              Some {| community_id := cid; profile_name := pname; profile_url := purl;
                      thread_title := title; object_url := ourl; object_summary := summary;
                      content_url := cu; content_type := ct; thread_id := tid;
                      comment_id := cmid; author_user_id := au |}
          | _, _, _, _, _ => None
          end
      | _, _, _, _, _, _ => None
      end
  | _ => None
  end.

(** [z.infer<typeof CommonEnvSchema>]. *)
Record CommonEnv := {
  COMMON_API_KEY : string;
  COMMON_WALLET_ADDRESS : string;
  COMMON_API_URL : option string;
  COMMON_WEBHOOK_PORT : Z;
  COMMON_WEBHOOK_SIGNING_KEYS : option (gmap string string);
}.

(* ===================================================================== *)
(** * Values exchanged with the collaborators *)
(* ===================================================================== *)

(** A [UUID] of the agent framework is a string of a fixed shape. *)
Definition UUID := string.

Module Content.
(** [Content] of "@elizaos/core", with the members this client sets or
    reads. *)
Record t := {
  text : string;
  action : option string;
  source : option string;
  url : option string;
  content_url : option string;
}.
End Content.

Module Memory.
(** [Memory] of "@elizaos/core". [createdAt] is a [getTime()] result:
    [None] is [NaN]. *)
Record t := {
  id : UUID;
  userId : UUID;
  roomId : UUID;
  agentId : UUID;
  content : Content.t;
  createdAt : option Z;
  unique : bool;
  embedding : list Z;
}.
End Memory.

Module CreateCommentResponse.
(** [CreateCommentResponse] of "@commonxyz/api-client/api", with the
    members [handleMessage] reads. *)
Record t := {
  id : Z;
  community_id : string;
  thread_id : Z;
  body : string;
  content_url : option string;
  created_at : string;
}.
End CreateCommentResponse.

Module Character.
(** [character.templates] of the runtime; every member is optional. *)
Record Templates := {
  commonShouldRespondTemplate : option string;
  shouldRespondTemplate : option string;
  commonMessageHandlerTemplate : option string;
  messageHandlerTemplate : option string;
}.
End Character.

(** The verdict of [generateShouldRespond]. *)
Inductive ShouldRespond := RESPOND | IGNORE | STOP.

(** What [fetch] resolves to: [ok], [status] and the outcome of [text()]. *)
Record FetchResponse := {
  ok : bool;
  status : Z;
  text : Result string;
}.

Inductive LogLevel := log | debug | warn | error | success.

(** The body given to [res.send]. *)
Inductive Body :=
| Empty
| Text (s : string)
| JsonError (error : string)
| JsonSchemaError (error : string)
| JsonMessage (message : string)
| DefaultErrorPage.

Record HttpResponse := {
  statusCode : Z;
  sent : Body;
}.

Definition send (code : Z) (b : Body) : HttpResponse :=
  {| statusCode := code; sent := b |}.

(** An Express request as the two handlers of the POST route read it:
    [req.body] as the body parsers left it and the signature header.
    [payload] is the body as transmitted; the parsers consumed it and no
    handler can read it. *)
Record Request := {
  body : JsValue;
  x_knock_signature : option string;
  payload : string;
}.

(* ===================================================================== *)
(** * Interfaces of the collaborators *)
(* ===================================================================== *)

(** Node: "crypto", [Buffer], [Date] and the global [fetch]. *)
Class Node := {
  (** [createHmac("sha256", key).update(value).digest("base64")] *)
  createHmac_sha256_base64 : string -> string -> string;
  (** [Buffer.from(s, "base64")] *)
  Buffer_from_base64 : string -> list Byte.byte;
  (** [new Date(s).getTime()]; [None] is [NaN] (an invalid date) *)
  Date_getTime : string -> option Z;
  fetch : string -> Result FetchResponse;
}.

(** "@elizaos/core": the functions and constants [messages.ts] imports. *)
Class ElizaCore := {
  State : Type;
  stringToUuid : string -> UUID;
  composeContext : State -> string -> string;
  generateShouldRespond : string -> Result (option ShouldRespond);
  generateMessageResponse : string -> Result (option Content.t);
  getEmbeddingZeroVector : list Z;
  Clients_COMMON : string;
}.

(** [IAgentRuntime]: the members the client calls. *)
Class IAgentRuntime `{ElizaCore} := {
  agentId : UUID;
  character_templates : option Character.Templates;
  ensureConnection : UUID -> UUID -> string -> string -> Result unit;
  messageManager_createMemory : Memory.t -> Result unit;
  composeState : Memory.t -> AugmentedAgentMentioned -> string -> Result State;
  evaluate : Memory.t -> State -> bool -> Result unit;
  processActions : Memory.t -> list Memory.t -> State -> Result unit;
  databaseAdapter_log : Memory.t -> string -> Content.t -> Result unit;
}.

(** [CommonApiClient]: [comment.createComment({thread_id, body, parent_id})]. *)
Class CommonApiClient := {
  comment_createComment : Z -> string -> option Z -> Result CreateCommentResponse.t;
}.

(** "./templates.ts". *)
Class Templates := {
  commonMessageHandlerTemplate : string;
  commonShouldRespondTemplate : string;
}.

(* ===================================================================== *)
(** * The client *)
(* ===================================================================== *)

Section Client.

Context {node : Node} {core : ElizaCore} {runtime : IAgentRuntime}
        {commonApiClient : CommonApiClient} {templates : Templates}.

(** The calls that leave the client, with their arguments. *)
Inductive Call :=
| ElizaLogger (level : LogLevel) (msg : string)
| EnsureConnection (userId roomId : UUID) (userScreenName source : string)
| CreateMemory (memory : Memory.t)
| ComposeState (memory : Memory.t) (commonMessage : AugmentedAgentMentioned)
               (agentName : string)
| GenerateShouldRespond (context : string)
| GenerateMessageResponse (context : string)
| DatabaseLog (memory : Memory.t) (context : string) (response : Content.t)
| CreateComment (thread_id : Z) (body : string) (parent_id : option Z)
| ProcessActions (memory : Memory.t) (responses : list Memory.t) (state : State)
| Evaluate (memory : Memory.t) (state : State) (didRespond : bool)
| Fetch (url : string).

Definition elizaLogger (level : LogLevel) (msg : string) : M Call unit :=
  call (ElizaLogger level msg) (Ok tt).

(* ------------------------------------------------------------------- *)
(** ** messages.ts: [MessageManager] *)
(* ------------------------------------------------------------------- *)

Record MessageManager := {
  commonUserId : Z;
  commonProfileName : string;
}.

Variable this : MessageManager.

(** [character.templates?.member]. *)
Definition template_of (member : Character.Templates -> option string)
  : option string :=
  match character_templates with
  | Some t => member t
  | None => None
  end.

Definition _shouldRespond (message : AugmentedAgentMentioned) (state : State)
  : M Call bool :=
  (* Don't respond to self *)
  if author_user_id message =? commonUserId this then
    elizaLogger debug "Skipping message from self" ;;;
    ret false
  (* Agent not mentioned *)
  else if negb (JS.includes (full_object_text message)
                            (JS.Number_toString (commonUserId this))) then
    ret false
  else
    let context :=
      composeContext state
        (JS.or_string (template_of Character.commonShouldRespondTemplate)
           (JS.or_string (template_of Character.shouldRespondTemplate)
              commonShouldRespondTemplate)) in
    let* shouldRespond :=
      call (GenerateShouldRespond context) (generateShouldRespond context) in
    ret (match shouldRespond with Some RESPOND => true | _ => false end).

(** Returns [None] for the [undefined] of the bare [return]. *)
Definition _generateResponse (memory : Memory.t) (context : string)
  : M Call (option Content.t) :=
  elizaLogger debug "[Common Client] Generating response" ;;;
  let* response :=
    call (GenerateMessageResponse context) (generateMessageResponse context) in
  match response with
  | None =>
      elizaLogger error "No response from generateMessageResponse" ;;;
      ret None
  | Some r =>
      call (DatabaseLog memory context r) (databaseAdapter_log memory context r) ;;;
      ret (Some r)
  end.

Record MemoryIds := {
  roomId : UUID;
  userId : UUID;
  messageId : UUID;
}.

(** [None] is the [undefined] returned when neither argument is given. *)
Definition _generateMemoryIds (message : option AugmentedAgentMentioned)
           (commentResponse : option CreateCommentResponse.t)
  : option MemoryIds :=
  match message, commentResponse with
  | Some message, _ =>
      let userId :=
        stringToUuid (JS.Number_toString (author_user_id message) ++ "-" ++ agentId) in
      let userId :=
        if author_user_id message =? commonUserId this then agentId else userId in
      Some {|
        roomId :=
          stringToUuid (community_id message ++ "-"
                        ++ JS.Number_toString (thread_id message) ++ "-" ++ agentId);
        userId := userId;
        messageId :=
          stringToUuid (ContentType_toString (content_type message) ++ "-"
                        ++ JS.Number_toString
                             (JS.or_number (comment_id message) (thread_id message))
                        ++ "-" ++ agentId);
      |}
  | None, Some commentResponse =>
      Some {|
        roomId :=
          stringToUuid (CreateCommentResponse.community_id commentResponse ++ "-"
                        ++ JS.Number_toString
                             (CreateCommentResponse.thread_id commentResponse)
                        ++ "-" ++ agentId);
        userId := agentId;
        messageId :=
          stringToUuid ("comment-"
                        ++ JS.Number_toString (CreateCommentResponse.id commentResponse)
                        ++ "-" ++ agentId);
      |}
  | None, None => None
  end.

(** [const {messageId, userId, roomId} = ...]: destructuring [undefined]
    throws. *)
Definition destructure (ids : option MemoryIds) : M Call MemoryIds :=
  match ids with
  | Some i => ret i
  | None => throw (JS.TypeError "Cannot destructure property 'messageId' of undefined")
  end.

(** [response.text] on the value [_generateResponse] returned. *)
Definition response_text (response : option Content.t) : M Call string :=
  match response with
  | Some r => ret (Content.text r)
  | None => throw (JS.TypeError "Cannot read properties of undefined (reading 'text')")
  end.

(** The memory of the inbound event. *)
Definition inboundMemory (now : Z) (message : AugmentedAgentMentioned)
           (ids : MemoryIds) : Memory.t :=
  {| Memory.id := messageId ids;
     Memory.userId := userId ids;
     Memory.roomId := roomId ids;
     Memory.agentId := agentId;
     Memory.content :=
       {| Content.text := full_object_text message;
          Content.action := None;
          Content.source := Some Clients_COMMON;
          Content.url := Some (object_url message);
          Content.content_url := None |};
     Memory.createdAt := Some now;
     Memory.unique := true;
     Memory.embedding := getEmbeddingZeroVector |}.

(** The memory of the published reply. *)
Definition replyMemory (res : CreateCommentResponse.t) (ids : MemoryIds)
  : Memory.t :=
  {| Memory.id := messageId ids;
     Memory.userId := userId ids;
     Memory.roomId := roomId ids;
     Memory.agentId := agentId;
     Memory.content :=
       {| Content.text := CreateCommentResponse.body res;
          Content.action := None;
          Content.source := Some Clients_COMMON;
          Content.url := None;
          Content.content_url := CreateCommentResponse.content_url res |};
     Memory.createdAt := Date_getTime (CreateCommentResponse.created_at res);
     Memory.unique := true;
     Memory.embedding := getEmbeddingZeroVector |}.

(** [now] is the clock reading of [new Date().getTime()]. *)
Definition handleMessage (now : Z) (message : AugmentedAgentMentioned)
  : M Call unit :=
  let* ids := destructure (_generateMemoryIds (Some message) None) in
  call (EnsureConnection (userId ids) (roomId ids) (profile_name message) Clients_COMMON)
       (ensureConnection (userId ids) (roomId ids) (profile_name message) Clients_COMMON) ;;;
  let memory := inboundMemory now message ids in
  call (CreateMemory memory) (messageManager_createMemory memory) ;;;
  let* state :=
    call (ComposeState memory message (commonProfileName this))
         (composeState memory message (commonProfileName this)) in
  let* respond := _shouldRespond message state in
  if negb respond then
    elizaLogger debug "Not responding to message" ;;;
    call (Evaluate memory state false) (evaluate memory state false)
  else
    let context :=
      composeContext state
        (JS.or_string (template_of Character.commonMessageHandlerTemplate)
           (JS.or_string (template_of Character.messageHandlerTemplate)
              commonMessageHandlerTemplate)) in
    let* response := _generateResponse memory context in
    let* body := response_text response in
    let* res :=
      call (CreateComment (thread_id message) body (comment_id message))
           (comment_createComment (thread_id message) body (comment_id message)) in
    let* resIds := destructure (_generateMemoryIds None (Some res)) in
    let resMemory := replyMemory res resIds in
    call (CreateMemory resMemory) (messageManager_createMemory resMemory) ;;;
    (if JS.truthy_string (match response with Some r => Content.action r | None => None end)
     then call (ProcessActions memory [resMemory] state)
               (processActions memory [resMemory] state)
     else ret tt) ;;;
    call (Evaluate memory state true) (evaluate memory state true).

(* ------------------------------------------------------------------- *)
(** ** index.ts: [CommonClient] *)
(* ------------------------------------------------------------------- *)

Variable config : CommonEnv.

(** What [keys[community_id]] evaluates to on the parsed key object: an
    own member, a member inherited from [Object.prototype] (a function or
    an object, never a string), or [undefined]. *)
Inductive Property :=
| Own (value : string)
| Inherited
| Undefined.

Definition Object_prototype_members : list string :=
  ["constructor"; "hasOwnProperty"; "isPrototypeOf"; "propertyIsEnumerable";
   "toLocaleString"; "toString"; "valueOf"; "__proto__"; "__defineGetter__";
   "__defineSetter__"; "__lookupGetter__"; "__lookupSetter__"].

Definition member (keys : gmap string string) (k : string) : Property :=
  match keys !! k with
  | Some v => Own v
  | None => if existsb (String.eqb k) Object_prototype_members
            then Inherited else Undefined
  end.

(** [crypto.timingSafeEqual]: throws on buffers of different byte length. *)
Fixpoint Buffer_equals (a b : list Byte.byte) : bool :=
  match a, b with
  | [], [] => true
  | x :: a', y :: b' => Byte.eqb x y && Buffer_equals a' b'
  | _, _ => false
  end.

Definition timingSafeEqual (a b : list Byte.byte) : M Call bool :=
  if (length a =? length b)%nat then ret (Buffer_equals a b)
  else throw (JS.RangeError "Input buffers must have the same byte length").

(** [sig.split(",")[i].substring(2)]: reading [substring] of a missing
    part throws. *)
Definition header_part (sig : string) (i : nat) : M Call string :=
  match JS.split "," sig !! i with
  | Some part => ret (JS.substring 2 part)
  | None => throw (JS.TypeError "Cannot read properties of undefined (reading 'substring')")
  end.

(** Lines 167-172: the template literal over [rawBody], then the HMAC.
    A key that is not a string makes [createHmac] throw. *)
Definition reconstructedSig (signingKey : Property) (timestamp : string)
           (rawBody : JsValue) : M Call string :=
  let* printed := await (ToString rawBody) in
  let value := timestamp ++ "." ++ printed in
  match signingKey with
  | Own key => ret (createHmac_sha256_base64 key value)
  | _ => throw (JS.TypeError "The 'key' argument must be of type string")
  end.

Definition UNAUTHORIZED : HttpResponse := send 401 (JsonError "UNAUTHORIZED").

(** What a middleware ends with: [next()], with [req.body] as it now is,
    or a response. *)
Inductive Middleware :=
| Next (body : AgentMentioned)
| Respond (res : HttpResponse).

(** [now] is the clock reading of [new Date()] on line 182. *)
Definition _validateWebhook (now : Z) (req : Request) : M Call Middleware :=
  match AgentMentionedSchema_safeParse (body req) with
  | None =>
      elizaLogger warn "Invalid request body: " ;;;
      ret (Respond (send 400 (JsonSchemaError "Invalid request body")))
  | Some parsed =>
      let rawBody := body req in
      match COMMON_WEBHOOK_SIGNING_KEYS config with
      | None =>
          elizaLogger warn
            "Common Webhook signing keys not set. Skipping signature validation." ;;;
          ret (Next parsed)
      | Some keys =>
          let signingKey := member keys (community_id parsed) in
          match signingKey with
          | Undefined | Own "" =>
              elizaLogger warn "Signing key not found for community: " ;;;
              ret (Respond UNAUTHORIZED)
          | _ =>
              if negb (JS.truthy_string (x_knock_signature req)) then
                elizaLogger warn "No signature found in request headers" ;;;
                ret (Respond UNAUTHORIZED)
              else
                let sig := default "" (x_knock_signature req) in
                let* timestamp := header_part sig 0 in
                let* originalSignature := header_part sig 1 in
                let* reconstructed := reconstructedSig signingKey timestamp rawBody in
                let* isValid :=
                  timingSafeEqual (Buffer_from_base64 originalSignature)
                                  (Buffer_from_base64 reconstructed) in
                let isWithinFiveMinutes :=
                  match Date_getTime timestamp with
                  | Some date => now - date <? 60000
                  | None => false
                  end in
                if isValid && isWithinFiveMinutes then ret (Next parsed)
                else ret (Respond (send 401 (Text "UNAUTHORIZED")))
          end
      end
  end.

(** The rest of [_handleCommonEvent] once the content is known. *)
Definition deliver (now : Z) (parsed : AgentMentioned) (content : string)
  : M Call HttpResponse :=
  handleMessage now {| event := parsed; full_object_text := content |} ;;;
  elizaLogger debug "Successfully handled message. Returning 200 status code." ;;;
  ret (send 200 Empty).

Definition _handleCommonEvent (now : Z) (parsed : AgentMentioned)
  : M Call HttpResponse :=
  try_catch
    (* Fetch full content from R2 if not all content fit in `object_summary` *)
    (if JS.truthy_string (content_url parsed) then
       let url := default "" (content_url parsed) in
       let* contentResponse := call (Fetch url) (fetch url) in
       if negb (ok contentResponse) then
         elizaLogger error "❌ [ERROR] Failed to fetch content from URL:" ;;;
         ret (send 400 (JsonError "Failed to fetch content from the provided URL"))
       else
         let* content := await (text contentResponse) in
         elizaLogger debug "✅ [INFO] Successfully fetched content from URL:" ;;;
         deliver now parsed content
     else
       deliver now parsed (object_summary parsed))
    (fun _ =>
       elizaLogger error "❌ [ERROR] Error processing request:" ;;;
       ret (send 500 (JsonError "Internal server error"))).

(** [app.post(webhookPath, raw(...), _validateWebhook, _handleCommonEvent)]:
    [raw] comes after the application-level [express.json()], finds the body
    already parsed and leaves [req.body] as it is;
    the second handler runs when the first calls [next()]; an error thrown
    by a handler reaches Express ("express-async-errors"), whose default
    error handler answers 500. [now] and [later] are the clock readings
    of the two handlers. *)
Definition post_webhook (now later : Z) (req : Request)
  : list Call * HttpResponse :=
  match
    (let* m := _validateWebhook now req in
     match m with
     | Next parsed => _handleCommonEvent later parsed
     | Respond res => ret res
     end)
  with
  | (t, Ok res) => (t, res)
  | (t, Throw _) => (t, send 500 DefaultErrorPage)
  end.

End Client.

(* ===================================================================== *)
(** * A concrete deployment *)
(* ===================================================================== *)

(** Collaborators with fixed answers, on which the client can be run. The
    HMAC table holds the true HMAC-SHA256 digests of the listed values under
    [signingKey]; the date table holds the true epoch milliseconds. *)
Module Demo.

(** JSON text is written with ['] for the double quote. *)
Fixpoint dq (s : string) : string :=
  match s with
  | EmptyString => EmptyString
  | String c s' =>
      String (if Ascii.eqb c "'" then ascii_of_nat 34 else c) (dq s')
  end.

Definition sextet (c : ascii) : option N :=
  let n := N_of_ascii c in
  if (65 <=? n)%N && (n <=? 90)%N then Some (n - 65)%N
  else if (97 <=? n)%N && (n <=? 122)%N then Some (n - 71)%N
  else if (48 <=? n)%N && (n <=? 57)%N then Some (n + 4)%N
  else if (n =? 43)%N || (n =? 45)%N then Some 62%N
  else if (n =? 47)%N || (n =? 95)%N then Some 63%N
  else None.

(** The sextets before the first padding character. *)
Fixpoint sextets (s : string) : list N :=
  match s with
  | EmptyString => []
  | String c s' =>
      if Ascii.eqb c "=" then []
      else match sextet c with
           | Some n => n :: sextets s'
           | None => sextets s'
           end
  end.

Fixpoint octets (l : list N) : list N :=
  match l with
  | a :: b :: c :: d :: rest =>
      (a * 4 + b / 16)%N :: ((b mod 16) * 16 + c / 4)%N
        :: ((c mod 4) * 64 + d)%N :: octets rest
  | [a; b; c] => [(a * 4 + b / 16)%N; ((b mod 16) * 16 + c / 4)%N]
  | [a; b] => [(a * 4 + b / 16)%N]
  | _ => []
  end.

Definition base64 (s : string) : list Byte.byte :=
  map (fun n => default Byte.x00 (Byte.of_N n)) (octets (sextets s)).

Definition signingKey : string := "whsec_common_demo".

Definition hmac (key value : string) : string :=
  if String.eqb key signingKey then
    if String.eqb value "2025-01-01T00:00:00.000Z.[object Object]"
    then "oPNvyF8qnH6cEKe08nJ9svZBz+fgNjyi0UhBXS+C0+o="
    else if String.eqb value "2025-01-01T00:59:30.000Z.[object Object]"
    then "Q1TWynuJ0ZkVBq91OL3FRfkb8Ji1Nac1v7tiw92euqU="
    else if String.eqb value "2025-01-01T02:00:00.000Z.[object Object]"
    then "hdvKNKP+Mt5gXU5KNtEQc1oCso0F6JYmJJf5mcYQ1UU="
    else if String.eqb value "1735693170000.[object Object]"
    then "6K/hxq2mZc+l1ssa4J98LGE/QbKY+qwK7pdCwy1TQgo="
    else "AAAAAAAAAAAAAAAAAAAAAAAAAAAAAAAAAAAAAAAAAAA="
  else "AAAAAAAAAAAAAAAAAAAAAAAAAAAAAAAAAAAAAAAAAAA=".

Definition getTime (s : string) : option Z :=
  if String.eqb s "2025-01-01T00:00:00.000Z" then Some 1735689600000
  else if String.eqb s "2025-01-01T00:59:30.000Z" then Some 1735693170000
  else if String.eqb s "2025-01-01T01:00:00.000Z" then Some 1735693200000
  else if String.eqb s "2025-01-01T02:00:00.000Z" then Some 1735696800000
  else None.

(** The clock of the examples: 2025-01-01T01:00:00.000Z. *)
Definition now : Z := 1735693200000.

Definition fullText : string :=
  "hi [@agent](/profile/id/99), this thread is longer than its summary".

Definition fetched (url : string) : Result FetchResponse :=
  if String.eqb url "https://r2.common.xyz/full"
  then Ok {| ok := true; status := 200; text := Ok fullText |}
  else if String.eqb url "https://r2.common.xyz/gone"
  then Ok {| ok := false; status := 404; text := Ok "Not Found" |}
  else Throw (JS.TypeError "fetch failed").

Definition node : Node :=
  {| createHmac_sha256_base64 := hmac;
     Buffer_from_base64 := base64;
     Date_getTime := getTime;
     fetch := fetched |}.

(** The language model answers [verdict] and [generated] whatever the
    context. *)
Definition core (verdict : option ShouldRespond) (generated : option Content.t)
  : ElizaCore :=
  {| State := string;
     stringToUuid := fun s => "uuid:" ++ s;
     composeContext := fun state template => template ++ state;
     generateShouldRespond := fun _ => Ok verdict;
     generateMessageResponse := fun _ => Ok generated;
     getEmbeddingZeroVector := [0; 0; 0];
     Clients_COMMON := "common" |}.

(** The runtime records nothing and composes the state from the text of
    the memory. *)
Definition runtime (verdict : option ShouldRespond) (generated : option Content.t)
  : @IAgentRuntime (core verdict generated) :=
  {| agentId := "agent-uuid";
     character_templates := None;
     ensureConnection := fun _ _ _ _ => Ok tt;
     messageManager_createMemory := fun _ => Ok tt;
     composeState := fun memory _ _ =>
       Ok (Content.text (Memory.content memory) : @State (core verdict generated));
     evaluate := fun _ _ _ => Ok tt;
     processActions := fun _ _ _ => Ok tt;
     databaseAdapter_log := fun _ _ _ => Ok tt |}.

(** Common creates comment 1001 in community "common". *)
Definition api : CommonApiClient :=
  {| comment_createComment := fun thread_id body _ =>
       Ok {| CreateCommentResponse.id := 1001;
             CreateCommentResponse.community_id := "common";
             CreateCommentResponse.thread_id := thread_id;
             CreateCommentResponse.body := body;
             CreateCommentResponse.content_url := None;
             CreateCommentResponse.created_at := "2025-01-01T01:00:00.000Z" |} |}.

Definition templates : Templates :=
  {| commonMessageHandlerTemplate := "reply:";
     commonShouldRespondTemplate := "decide:" |}.

(** The agent is user 99 of Common. *)
Definition manager : MessageManager :=
  {| commonUserId := 99; commonProfileName := "agent" |}.

Definition config : CommonEnv :=
  {| COMMON_API_KEY := "api-key";
     COMMON_WALLET_ADDRESS := "0xA9e7";
     COMMON_API_URL := None;
     COMMON_WEBHOOK_PORT := 3001;
     COMMON_WEBHOOK_SIGNING_KEYS := Some {[ "common" := signingKey ]} |}.

(** The thread mention of the end-to-end scenario: user 42 writes
    "hi @agent" in thread 7 of community "common". *)
Definition mention : AgentMentioned :=
  {| community_id := "common";
     profile_name := "Tim";
     profile_url := "https://common.xyz/profile/id/42";
     thread_title := "Hello";
     object_url := "https://common.xyz/common/discussion/7";
     object_summary := "hi @agent";
     content_url := None;
     content_type := thread;
     thread_id := 7;
     comment_id := None;
     author_user_id := 42 |}.

(** The same event as transmitted and as [express.json()] parses it. *)
Definition mention_payload : string :=
  dq "{'community_id':'common','profile_name':'Tim','profile_url':'https://common.xyz/profile/id/42','thread_title':'Hello','object_url':'https://common.xyz/common/discussion/7','object_summary':'hi @agent','content_type':'thread','thread_id':7,'author_user_id':42}".

Definition mention_json : Json :=
  JObj [("community_id", JStr "common");
        ("profile_name", JStr "Tim");
        ("profile_url", JStr "https://common.xyz/profile/id/42");
        ("thread_title", JStr "Hello");
        ("object_url", JStr "https://common.xyz/common/discussion/7");
        ("object_summary", JStr "hi @agent");
        ("content_type", JStr "thread");
        ("thread_id", JNum 7);
        ("author_user_id", JNum 42)].

Definition request (signature : string) : Request :=
  {| body := JsJson mention_json;
     x_knock_signature := Some signature;
     payload := mention_payload |}.

Definition reply : Content.t :=
  {| Content.text := "hello Tim";
     Content.action := None;
     Content.source := None;
     Content.url := None;
     Content.content_url := None |}.

(** Variations of the mention. *)
Definition written (summary : string) (url : option string) (type : ContentType)
           (threadId : Z) (commentId : option Z) (author : Z) : AgentMentioned :=
  {| community_id := "common";
     profile_name := "Tim";
     profile_url := "https://common.xyz/profile/id/42";
     thread_title := "Hello";
     object_url := "https://common.xyz/common/discussion/7";
     object_summary := summary;
     content_url := url;
     content_type := type;
     thread_id := threadId;
     comment_id := commentId;
     author_user_id := author |}.

(** The mention as Common writes it, with the profile id of the agent. *)
Definition mentionById : AgentMentioned :=
  written "hi [@agent](/profile/id/99)" None thread 7 None 42.

(** The agent's own text, which quotes its own id. *)
Definition ownThread : AgentMentioned :=
  written "I am [@agent](/profile/id/99)" None thread 7 None 99.

Definition commentZero : AgentMentioned :=
  written "hi" None comment 7 (Some 0) 42.

Definition commentSeven : AgentMentioned :=
  written "hi" None comment 3 (Some 7) 42.

Definition emptyUrl : AgentMentioned :=
  written "hi [@agent](/profile/id/99)" (Some "") thread 7 None 42.

Definition overflow : AgentMentioned :=
  written "hi [@agent](/profile/id/99), this thr" (Some "https://r2.common.xyz/full")
          thread 7 None 42.

Definition gone : AgentMentioned :=
  written "hi [@agent](/profile/id/99), this thr" (Some "https://r2.common.xyz/gone")
          thread 7 None 42.

(** An event with its summary as full text. *)
Definition inFull (e : AgentMentioned) : AugmentedAgentMentioned :=
  {| event := e; full_object_text := object_summary e |}.

(** The ids of an event of user 42 in thread 7. *)
Definition ids : MemoryIds :=
  {| roomId := "uuid:common-7-agent-uuid";
     userId := "uuid:42-agent-uuid";
     messageId := "uuid:thread-7-agent-uuid" |}.

(** The deployments used below: the model always answers RESPOND, and
    either writes [reply] or returns nothing. *)
Definition answering : ElizaCore := core (Some RESPOND) (Some reply).
Definition answeringRuntime : @IAgentRuntime answering :=
  runtime (Some RESPOND) (Some reply).
Definition mute : ElizaCore := core (Some RESPOND) None.
Definition muteRuntime : @IAgentRuntime mute := runtime (Some RESPOND) None.

End Demo.

(* ===================================================================== *)
(** * Vocabulary of the statements *)
(* ===================================================================== *)

(** The request passes every guard before the signature check: its body is
    schema-valid, a non-empty key is registered for its community, and the
    header splits into a first part, whose tail is the timestamp, and a
    second part, whose tail is the signature. *)
Definition Keyed (config : CommonEnv) (req : Request) (parsed : AgentMentioned)
           (key timestamp originalSignature : string) : Prop :=
  AgentMentionedSchema_safeParse (body req) = Some parsed /\
  (exists keys, COMMON_WEBHOOK_SIGNING_KEYS config = Some keys
                /\ keys !! community_id parsed = Some key) /\
  key <> "" /\
  exists sig first second rest,
    x_knock_signature req = Some sig /\ sig <> "" /\
    JS.split "," sig = first :: second :: rest /\
    timestamp = JS.substring 2 first /\
    originalSignature = JS.substring 2 second.

(** Kinds of calls, and how many calls of a kind a trace holds. *)
Definition is_Fetch {core : ElizaCore} (c : Call) : bool :=
  match c with Fetch _ => true | _ => false end.

Definition is_CreateComment {core : ElizaCore} (c : Call) : bool :=
  match c with CreateComment _ _ _ => true | _ => false end.

Definition is_CreateMemory {core : ElizaCore} (c : Call) : bool :=
  match c with CreateMemory _ => true | _ => false end.

Definition is_GenerateMessageResponse {core : ElizaCore} (c : Call) : bool :=
  match c with GenerateMessageResponse _ => true | _ => false end.


Definition count {A} (p : A -> bool) (l : list A) : nat :=
  length (List.filter p l).

(** The string from which the specification derives the messageId: the
    content type, then "comment_id if present else thread_id". *)
Definition messageId_source_spec `{IAgentRuntime} (message : AgentMentioned)
  : string :=
  ContentType_toString (content_type message) ++ "-"
  ++ JS.Number_toString
       (match comment_id message with
        | Some c => c
        | None => thread_id message
        end)
  ++ "-" ++ agentId.

(** The string from which the code derives it (lines 116-118). *)
Definition messageId_source `{IAgentRuntime} (message : AgentMentioned)
  : string :=
  ContentType_toString (content_type message) ++ "-"
  ++ JS.Number_toString (JS.or_number (comment_id message) (thread_id message))
  ++ "-" ++ agentId.

(** The context given to the classifier and to the generator. *)
Definition shouldRespondContext `{IAgentRuntime} `{Templates} (state : State)
  : string :=
  composeContext state
    (JS.or_string (template_of Character.commonShouldRespondTemplate)
       (JS.or_string (template_of Character.shouldRespondTemplate)
          commonShouldRespondTemplate)).

Definition messageHandlerContext `{IAgentRuntime} `{Templates} (state : State)
  : string :=
  composeContext state
    (JS.or_string (template_of Character.commonMessageHandlerTemplate)
       (JS.or_string (template_of Character.messageHandlerTemplate)
          commonMessageHandlerTemplate)).

(** The [catch] block of [_handleCommonEvent]. *)
Definition internal_error {core : ElizaCore} (_ : JS.Error) : M Call HttpResponse :=
  elizaLogger error "❌ [ERROR] Error processing request:" ;;;
  ret (send 500 (JsonError "Internal server error")).

Section Recording.

Context {node : Node} {core : ElizaCore} {runtime : IAgentRuntime}.
Variable this : MessageManager.

(** The calls of [handleMessage] up to the decision: the connection, the
    inbound memory, the state. *)
Definition recording (now : Z) (message : AugmentedAgentMentioned)
           (ids : MemoryIds) : list Call :=
  [EnsureConnection (userId ids) (roomId ids) (profile_name message) Clients_COMMON;
   CreateMemory (inboundMemory now message ids);
   ComposeState (inboundMemory now message ids) message (commonProfileName this)].

(** These three calls succeed, and the runtime composes [state]. *)
Definition recorded (now : Z) (message : AugmentedAgentMentioned)
           (ids : MemoryIds) (state : State) : Prop :=
  _generateMemoryIds this (Some message) None = Some ids
  /\ ensureConnection (userId ids) (roomId ids) (profile_name message)
                      Clients_COMMON = Ok tt
  /\ messageManager_createMemory (inboundMemory now message ids) = Ok tt
  /\ composeState (inboundMemory now message ids) message
                  (commonProfileName this) = Ok state.

End Recording.

(* ===================================================================== *)
(** * environment.ts and the configuration schema *)
(* ===================================================================== *)

Module Environment.

(** [z.infer<typeof commonEnvSchema>] of environment.ts. *)
Record CommonConfig := {
  COMMON_API_KEY : string;
}.

(** An issue of a [ZodError]: its path and its message. *)
Record ZodIssue := {
  path : list string;
  message : string;
}.

(** [commonEnvSchema.parse(config)] on the one member of [config], a string
    or [undefined]; [inr] is the [ZodError] it throws. *)
Definition commonEnvSchema_parse (key : option string)
  : CommonConfig + list ZodIssue :=
  match key with
  | None => inr [{| path := ["COMMON_API_KEY"]; message := "Required" |}]
  | Some s =>
      if (1 <=? String.length s)%nat then inl {| COMMON_API_KEY := s |}
      else inr [{| path := ["COMMON_API_KEY"];
                   message := "Common API key is required" |}]
  end.

(** [a || b] on a setting ([null] is [None]) and an environment variable. *)
Definition or_ (a b : option string) : option string :=
  if JS.truthy_string a then a else b.

(** [Array.prototype.join]. *)
Fixpoint join (sep : string) (l : list string) : string :=
  match l with
  | [] => ""
  | x :: rest =>
      match rest with
      | [] => x
      | _ :: _ => x ++ sep ++ join sep rest
      end
  end.

Definition newline : string := String (ascii_of_nat 10) "".

(** [validateCommonConfig(runtime)]: the log entries it writes, and the
    configuration it resolves to ([inl]) or the message of the [Error] it
    rejects with ([inr]). *)
Definition validateCommonConfig (getSetting env : string -> option string)
  : list (LogLevel * string) * (CommonConfig + string) :=
  let config := or_ (getSetting "COMMON_API_KEY") (env "COMMON_API_KEY") in
  match commonEnvSchema_parse config with
  | inl validated =>
      ([(debug, "Validating Common configuration with runtime settings");
        (debug, "Parsing configuration with schema");
        (debug, "Configuration validated successfully")],
       inl validated)
  | inr errors =>
      let errorMessages :=
        join newline
             (map (fun e => join "." (path e) ++ ": " ++ message e) errors) in
      ([(debug, "Validating Common configuration with runtime settings");
        (debug, "Parsing configuration with schema");
        (error, "Configuration validation failed:")],
       inr ("Common configuration validation failed:" ++ newline ++ errorMessages))
  end.

End Environment.

(** [CommonEnvSchema] of schemas.ts reads strings of the environment. *)
Record RawEnv := {
  raw_COMMON_API_KEY : option string;
  raw_COMMON_WALLET_ADDRESS : option string;
  raw_COMMON_API_URL : option string;
  raw_COMMON_WEBHOOK_PORT : option string;
  raw_COMMON_WEBHOOK_SIGNING_KEYS : option string;
}.

(** [JSON.parse] ([None] when it throws) and [Number(s)] ([None] for [NaN]). *)
Class Builtins := {
  JSON_parse : string -> option Json;
  Number_ : string -> option Z;
}.

(** [z.string().min(1, ...)]: a string has a code unit exactly when its
    encoding has a byte. *)
Definition string_min1 (v : option string) : option string :=
  match v with
  | Some s => if (1 <=? String.length s)%nat then Some s else None
  | None => None
  end.

(** [z.record(z.string(), z.string())] on the members of an object. *)
Fixpoint record_of_strings (o : list (string * Json))
  : option (list (string * string)) :=
  match o with
  | [] => Some []
  | (k, JStr v) :: o' =>
      match record_of_strings o' with
      | Some r => Some ((k, v) :: r)
      | None => None
      end
  | _ :: _ => None
  end.

(** [stringToJSONSchema.pipe(z.record(z.string(), z.string()))]. *)
Definition signingKeys_parse `{Builtins} (s : string) : option (gmap string string) :=
  match JSON_parse s with
  | Some (JObj o) =>
      match record_of_strings o with
      | Some r => Some (list_to_map r)
      | None => None
      end
  | _ => None
  end.

(** [CommonEnvSchema.parse]; [None] when it throws. *)
Definition CommonEnvSchema_parse `{Builtins} (raw : RawEnv) : option CommonEnv :=
  match string_min1 (raw_COMMON_API_KEY raw),
        string_min1 (raw_COMMON_WALLET_ADDRESS raw) with
  | Some apiKey, Some wallet =>
      match match raw_COMMON_WEBHOOK_PORT raw with
            | None => Some 3001
            | Some p => Number_ p
            end,
            match raw_COMMON_WEBHOOK_SIGNING_KEYS raw with
            | None => Some None
            | Some s => match signingKeys_parse s with
                        | Some keys => Some (Some keys)
                        | None => None
                        end
            end with
      | Some port, Some keys =>
          Some {| COMMON_API_KEY := apiKey;
                  COMMON_WALLET_ADDRESS := wallet;
                  COMMON_API_URL := raw_COMMON_API_URL raw;
                  COMMON_WEBHOOK_PORT := port;
                  COMMON_WEBHOOK_SIGNING_KEYS := keys |}
      | _, _ => None
      end
  | _, _ => None
  end.

(* ===================================================================== *)
(** * Further vocabulary *)
(* ===================================================================== *)

Definition is_Evaluate {core : ElizaCore} (c : Call) : bool :=
  match c with Evaluate _ _ _ => true | _ => false end.

Definition is_ElizaLogger {core : ElizaCore} (c : Call) : bool :=
  match c with ElizaLogger _ _ => true | _ => false end.

(** The member names [AgentMentionedSchema] reads. *)
Definition schema_keys : list string :=
  ["community_id"; "profile_name"; "profile_url"; "thread_title"; "object_url";
   "object_summary"; "content_url"; "content_type"; "thread_id"; "comment_id";
   "author_user_id"].

(** The object [o] holds the event [e], member by member, within the
    limits of the schema. *)
Definition Describes (o : list (string * Json)) (e : AgentMentioned) : Prop :=
  get "community_id" o = Some (JStr (community_id e))
  /\ (JS.length (community_id e) <= 255)%nat
  /\ get "profile_name" o = Some (JStr (profile_name e))
  /\ (JS.length (profile_name e) <= 255)%nat
  /\ get "profile_url" o = Some (JStr (profile_url e))
  /\ get "thread_title" o = Some (JStr (thread_title e))
  /\ get "object_url" o = Some (JStr (object_url e))
  /\ get "object_summary" o = Some (JStr (object_summary e))
  /\ match content_url e with
     | Some u => get "content_url" o = Some (JStr u)
     | None => get "content_url" o = None \/ get "content_url" o = Some JNull
     end
  /\ get "content_type" o = Some (JStr (ContentType_toString (content_type e)))
  /\ get "thread_id" o = Some (JNum (thread_id e))
  /\ match comment_id e with
     | Some c => get "comment_id" o = Some (JNum c)
     | None => get "comment_id" o = None
     end
  /\ get "author_user_id" o = Some (JNum (author_user_id e)).

(** The object that holds an event. *)
Definition AgentMentioned_toJson (e : AgentMentioned) : list (string * Json) :=
  [("community_id", JStr (community_id e));
   ("profile_name", JStr (profile_name e));
   ("profile_url", JStr (profile_url e));
   ("thread_title", JStr (thread_title e));
   ("object_url", JStr (object_url e));
   ("object_summary", JStr (object_summary e))]
  ++ match content_url e with Some u => [("content_url", JStr u)] | None => [] end
  ++ [("content_type", JStr (ContentType_toString (content_type e)));
      ("thread_id", JNum (thread_id e))]
  ++ match comment_id e with Some c => [("comment_id", JNum c)] | None => [] end
  ++ [("author_user_id", JNum (author_user_id e))].

(** How [_handleCommonEvent] comes by the full text [content] of an event:
    the summary when there is no content_url to follow, else the body of a
    successful fetch. *)
Definition Normalized {node : Node} (parsed : AgentMentioned) (content : string)
  : Prop :=
  (JS.truthy_string (content_url parsed) = false
   /\ content = object_summary parsed)
  \/ exists url resp,
      content_url parsed = Some url /\ url <> ""
      /\ fetch url = Ok resp /\ ok resp = true /\ text resp = Ok content.

(** Further collaborators and inputs to run the client on. *)
Module Cases.

(** Common refuses the comment. *)
Definition refusing : CommonApiClient :=
  {| comment_createComment := fun _ _ _ =>
       Throw (JS.TypeError "fetch failed") |}.

(** An event whose overflow content cannot be reached. *)
Definition unreachable : AgentMentioned :=
  Demo.written "hi [@agent](/profile/id/99), this thr"
               (Some "https://r2.common.xyz/down") thread 7 None 42.

(** The comment Common creates for the agent's reply, and the event Common
    sends about that comment. *)
Definition created : CreateCommentResponse.t :=
  {| CreateCommentResponse.id := 1001;
     CreateCommentResponse.community_id := "common";
     CreateCommentResponse.thread_id := 7;
     CreateCommentResponse.body := "hello Tim";
     CreateCommentResponse.content_url := None;
     CreateCommentResponse.created_at := "2025-01-01T01:00:00.000Z" |}.

Definition ownComment : AgentMentioned :=
  Demo.written "hello Tim" None comment 7 (Some 1001) 99.

(** A text that names nobody and holds the digits of the agent's id. *)
Definition order : AgentMentioned :=
  Demo.written "order 1990 units" None thread 7 None 42.

(** The comment Common numbers 0. *)
Definition commentNumberedZero : CreateCommentResponse.t :=
  {| CreateCommentResponse.id := 0;
     CreateCommentResponse.community_id := "common";
     CreateCommentResponse.thread_id := 7;
     CreateCommentResponse.body := "hello Tim";
     CreateCommentResponse.content_url := None;
     CreateCommentResponse.created_at := "2025-01-01T01:00:00.000Z" |}.

(** The mention with a member the schema does not know. *)
Definition mention_with_unknown_member : list (string * Json) :=
  ("delivery_attempt", JNum 2)
    :: match Demo.mention_json with JObj o => o | _ => [] end.

(** A body of the same community as the mention, by another author. *)
Definition other_body : Json :=
  JObj [("community_id", JStr "common");
        ("profile_name", JStr "Mallory");
        ("profile_url", JStr "");
        ("thread_title", JStr "");
        ("object_url", JStr "");
        ("object_summary", JStr "anything at all 99");
        ("content_type", JStr "comment");
        ("thread_id", JNum 1);
        ("comment_id", JNum 2);
        ("author_user_id", JNum 1)].

Definition other_event : AgentMentioned :=
  {| community_id := "common";
     profile_name := "Mallory";
     profile_url := "";
     thread_title := "";
     object_url := "";
     object_summary := "anything at all 99";
     content_url := None;
     content_type := comment;
     thread_id := 1;
     comment_id := Some 2;
     author_user_id := 1 |}.

(** The configuration with the key of a second community. *)
Definition two_tenants : CommonEnv :=
  {| COMMON_API_KEY := "api-key";
     COMMON_WALLET_ADDRESS := "0xA9e7";
     COMMON_API_URL := None;
     COMMON_WEBHOOK_PORT := 3001;
     COMMON_WEBHOOK_SIGNING_KEYS :=
       Some (<["other" := "whsec_other"]> {[ "common" := Demo.signingKey ]}) |}.

(** [JSON.parse] and [Number] on the strings of the examples. *)
Definition keys_json : string := Demo.dq "{'common':'whsec_common_demo'}".

Definition builtins : Builtins :=
  {| JSON_parse := fun s =>
       if String.eqb s keys_json
       then Some (JObj [("common", JStr "whsec_common_demo")])
       else if String.eqb s "[]" then Some (JArr [])
       else None;
     Number_ := fun s =>
       if String.eqb s "3001" then Some 3001
       else if String.eqb s "8080" then Some 8080
       else None |}.

Definition raw (keys : option string) : RawEnv :=
  {| raw_COMMON_API_KEY := Some "api-key";
     raw_COMMON_WALLET_ADDRESS := Some "0xA9e7";
     raw_COMMON_API_URL := None;
     raw_COMMON_WEBHOOK_PORT := None;
     raw_COMMON_WEBHOOK_SIGNING_KEYS := keys |}.

(** The settings of a runtime that knows the API key, and an empty
    environment. *)
Definition settings (k : string) : option string :=
  if String.eqb k "COMMON_API_KEY" then Some "api-key" else None.

Definition nothing (k : string) : option string := None.

End Cases.

(* ===================================================================== *)
(** * Facts about the primitives *)
(* ===================================================================== *)

Lemma prefix_spec (sub s : string) :
  String.prefix sub s = true <-> exists post, s = sub ++ post.
Proof.
  revert s. induction sub as [|c sub IH]; intros s.
  - split; [intros _; now exists s | intros _; now destruct s].
  - destruct s as [|d s]; simpl.
    + split; [discriminate | intros [post H]; discriminate].
    + destruct (ascii_dec c d) as [->|Hne].
      * rewrite IH. split; intros [post H]; exists post.
        -- now rewrite H.
        -- now inversion H.
      * split; [discriminate | intros [post H]; inversion H; congruence].
Qed.

(** [includes] is substring containment. *)
Lemma includes_spec (s sub : string) :
  JS.includes s sub = true <-> exists pre post, s = pre ++ sub ++ post.
Proof.
  induction s as [|c s IH].
  - change (JS.includes "" sub) with (String.prefix sub "" || false).
    rewrite orb_false_r, prefix_spec. split.
    + intros [post H]. now exists "", post.
    + intros [pre [post H]]. destruct pre; [now exists post | discriminate].
  - change (JS.includes (String c s) sub)
      with (String.prefix sub (String c s) || JS.includes s sub).
    rewrite orb_true_iff, prefix_spec, IH. split.
    + intros [[post H] | [pre [post H]]].
      * now exists "", post.
      * exists (String c pre), post. now rewrite H.
    + intros [pre [post H]]. destruct pre as [|d pre].
      * left. now exists post.
      * right. inversion H. now exists pre, post.
Qed.

Lemma length_append (s t : string) :
  String.length (s ++ t) = (String.length s + String.length t)%nat.
Proof.
  induction s as [|a s IH]; [reflexivity|].
  change (S (String.length (s ++ t)) = S (String.length s + String.length t)).
  now rewrite IH.
Qed.

Lemma append_inv_tail (s1 s2 x : string) : s1 ++ x = s2 ++ x -> s1 = s2.
Proof.
  revert s2. induction s1 as [|a s1 IH]; intros [|b s2] H.
  - reflexivity.
  - apply (f_equal String.length) in H. rewrite !length_append in H.
    cbn [String.length] in H. lia.
  - apply (f_equal String.length) in H. rewrite !length_append in H.
    cbn [String.length] in H. lia.
  - change (String a (s1 ++ x) = String b (s2 ++ x)) in H.
    inversion H. f_equal. now apply IH.
Qed.

(** Different ids print differently. *)
Lemma to_int_nonnil (n : Z) :
  Z.to_int n <> Decimal.Pos Decimal.Nil /\ Z.to_int n <> Decimal.Neg Decimal.Nil.
Proof.
  destruct n as [|p|p]; cbn; split; try discriminate.
  - intros H. inversion H as [H'].
    now apply DecimalPos.Unsigned.to_uint_nonnil in H'.
  - intros H. inversion H as [H'].
    now apply DecimalPos.Unsigned.to_uint_nonnil in H'.
Qed.

Lemma Number_toString_inj (n m : Z) :
  JS.Number_toString n = JS.Number_toString m -> n = m.
Proof.
  unfold JS.Number_toString. intros H.
  apply DecimalZ.to_int_inj.
  destruct (to_int_nonnil n) as [Hn1 Hn2], (to_int_nonnil m) as [Hm1 Hm2].
  pose proof (NilZero.isi _ Hn1 Hn2) as In.
  pose proof (NilZero.isi _ Hm1 Hm2) as Im.
  rewrite H in In. congruence.
Qed.

Lemma Buffer_equals_refl (a : list Byte.byte) : Buffer_equals a a = true.
Proof.
  induction a as [|x a IH]; simpl; [reflexivity|].
  rewrite IH, andb_true_r. now destruct x.
Qed.

(** Running a computation whose trace and result are known. *)
Lemma bind_ok {C A B} (t : list C) (a : A) (k : A -> M C B) :
  bind (t, Ok a) k = ((t ++ trace (k a))%list, result (k a)).
Proof. unfold bind, trace, result. now destruct (k a). Qed.

Lemma bind_throw {C A B} (t : list C) (e : JS.Error) (k : A -> M C B) :
  bind (t, Throw e) k = (t, Throw e).
Proof. reflexivity. Qed.

Lemma trace_bind {C A B} (m : M C A) (k : A -> M C B) :
  trace (bind m k) =
  (trace m ++ match result m with Ok a => trace (k a) | Throw _ => [] end)%list.
Proof.
  destruct m as [t [a|e]]; simpl.
  - unfold trace; simpl. now destruct (k a).
  - unfold trace; simpl. now rewrite app_nil_r.
Qed.

Lemma bind_ret_l {C A B} (a : A) (k : A -> M C B) : bind (ret a) k = k a.
Proof. unfold bind, ret. now destruct (k a). Qed.

Lemma bind_await_ok {C A B} (a : A) (k : A -> M C B) : bind (await (Ok a)) k = k a.
Proof. apply bind_ret_l. Qed.

Lemma bind_throw_l {C A B} (e : JS.Error) (k : A -> M C B) :
  bind (throw e) k = throw e.
Proof. reflexivity. Qed.

Lemma bind_call_ok {C A B} (c : C) (a : A) (k : A -> M C B) :
  bind (call c (Ok a)) k = (c :: trace (k a), result (k a)).
Proof. unfold call. now rewrite bind_ok. Qed.

Lemma bind_call_throw {C A B} (c : C) (e : JS.Error) (k : A -> M C B) :
  bind (call c (Throw e)) k = ([c], Throw e).
Proof. reflexivity. Qed.

(** Runs a computation whose collaborator outcomes are known. *)
Ltac run :=
  repeat (rewrite ?bind_call_ok, ?bind_call_throw, ?bind_ret_l, ?bind_throw_l,
            ?bind_ok, ?bind_throw;
          cbn [trace result fst snd negb app ret throw]).

Lemma count_app {A} (p : A -> bool) (l l' : list A) :
  count p (l ++ l')%list = (count p l + count p l')%nat.
Proof. unfold count. now rewrite List.filter_app, length_app. Qed.

Lemma count_cons {A} (p : A -> bool) (x : A) (l : list A) :
  count p (x :: l) = ((if p x then 1 else 0) + count p l)%nat.
Proof. unfold count. simpl. now destruct (p x). Qed.

(** No call of a trace is of the kind [p]. *)
Lemma count_none {A} (p : A -> bool) (l : list A) :
  Forall (fun x => p x = false) l -> count p l = 0%nat.
Proof.
  induction 1 as [|x l Hx _ IH]; [reflexivity|].
  now rewrite count_cons, Hx, IH.
Qed.

Lemma Forall_trace_bind {C A B} (P : C -> Prop) (m : M C A) (k : A -> M C B) :
  Forall P (trace m) -> (forall a, Forall P (trace (k a))) ->
  Forall P (trace (bind m k)).
Proof.
  intros Hm Hk. rewrite trace_bind. apply Forall_app. split; [exact Hm|].
  destruct (result m); [apply Hk | constructor].
Qed.

Lemma Forall_trace_call {C A} (P : C -> Prop) (c : C) (r : Result A) :
  P c -> Forall P (trace (call c r)).
Proof. intros H. now repeat constructor. Qed.

(* ===================================================================== *)
(** * The signature verifier *)
(* ===================================================================== *)

Section Verifier.

Context {node : Node} {core : ElizaCore} {runtime : IAgentRuntime}
        {commonApiClient : CommonApiClient} {templates : Templates}.
Variable this : MessageManager.
Variable config : CommonEnv.

(** A body that passes the schema is a parsed object: never the raw
    bytes, never a string. *)
Lemma safeParse_object (v : JsValue) (parsed : AgentMentioned) :
  AgentMentionedSchema_safeParse v = Some parsed ->
  exists o, v = JsJson (JObj o).
Proof.
  destruct v as [| |j]; try discriminate.
  destruct j; try discriminate. intros _. now eexists.
Qed.

(** So the template literal prints it as "[object Object]", or throws. *)
Lemma ToString_schema_valid (v : JsValue) (parsed : AgentMentioned) :
  AgentMentionedSchema_safeParse v = Some parsed ->
  ToString v = Ok "[object Object]"
  \/ ToString v = Throw (JS.TypeError "Cannot convert object to primitive value").
Proof.
  intros H. destruct (safeParse_object _ _ H) as [o ->]. simpl.
  destruct (has_key "toString" o); auto.
Qed.

(** The verifier on a request that reaches the signature check. *)
Lemma validateWebhook_keyed now req parsed key timestamp originalSignature :
  Keyed config req parsed key timestamp originalSignature ->
  _validateWebhook config now req =
  (let* reconstructed := reconstructedSig (Own key) timestamp (body req) in
   let* isValid :=
     timingSafeEqual (Buffer_from_base64 originalSignature)
                     (Buffer_from_base64 reconstructed) in
   if isValid && match Date_getTime timestamp with
                 | Some date => now - date <? 60000
                 | None => false
                 end
   then ret (Next parsed)
   else ret (Respond (send 401 (Text "UNAUTHORIZED")))).
Proof.
  intros (Hparse & (keys & Hkeys & Hkey) & Hne & sig & p0 & p1 & rest
          & Hsig & Hsigne & Hsplit & -> & ->).
  unfold _validateWebhook. rewrite Hparse, Hkeys. unfold member. rewrite Hkey.
  destruct key as [|k0 key]; [congruence|].
  rewrite Hsig. destruct sig as [|s0 sig]; [congruence|].
  cbn [JS.truthy_string String.eqb negb default].
  unfold header_part, id. rewrite Hsplit. cbn [lookup list_lookup].
  now rewrite !bind_ret_l.
Qed.

Lemma reconstructedSig_printed key timestamp rawBody printed :
  ToString rawBody = Ok printed ->
  reconstructedSig (Own key) timestamp rawBody =
  ret (createHmac_sha256_base64 key (timestamp ++ "." ++ printed)).
Proof. intros H. unfold reconstructedSig. now rewrite H, bind_await_ok. Qed.

(** The verifier once the signature it compares with is known. *)
Lemma validateWebhook_compares now req parsed key timestamp originalSignature
      reconstructed :
  Keyed config req parsed key timestamp originalSignature ->
  reconstructedSig (Own key) timestamp (body req) = ret reconstructed ->
  _validateWebhook config now req =
  (let* isValid :=
     timingSafeEqual (Buffer_from_base64 originalSignature)
                     (Buffer_from_base64 reconstructed) in
   if isValid && match Date_getTime timestamp with
                 | Some date => now - date <? 60000
                 | None => false
                 end
   then ret (Next parsed)
   else ret (Respond (send 401 (Text "UNAUTHORIZED")))).
Proof.
  intros Hk Hr. rewrite (validateWebhook_keyed now _ _ _ _ _ Hk), Hr.
  now rewrite bind_ret_l.
Qed.

(** C1 (the code departs from the claim). For every schema-valid request
    verified with a configured tenant key, the signature the verifier
    compares against the header is the base64 HMAC-SHA256, keyed by the
    tenant's secret, of the timestamp followed by ".[object Object]": the
    template literal prints the parsed body object, not the bytes that were
    transmitted (a body with an own "toString" member makes it throw
    instead). That string is "<timestamp>.<rawBody>" for no transmitted
    body other than the 15 characters "[object Object]". *)
Theorem C1_signature_is_over_object_Object
        now req parsed key timestamp originalSignature :
  Keyed config req parsed key timestamp originalSignature ->
  (_validateWebhook config now req
     = throw (JS.TypeError "Cannot convert object to primitive value")
   \/ _validateWebhook config now req =
      (let* isValid :=
         timingSafeEqual
           (Buffer_from_base64 originalSignature)
           (Buffer_from_base64
              (createHmac_sha256_base64 key (timestamp ++ ".[object Object]"))) in
       if isValid && match Date_getTime timestamp with
                     | Some date => now - date <? 60000
                     | None => false
                     end
       then ret (Next parsed)
       else ret (Respond (send 401 (Text "UNAUTHORIZED")))))
  /\ (payload req <> "[object Object]" ->
      timestamp ++ ".[object Object]" <> timestamp ++ "." ++ payload req).
Proof.
  intros Hk. split.
  - destruct Hk as [Hparse Hrest].
    destruct (ToString_schema_valid _ _ Hparse) as [Hp | Hp].
    + right.
      apply (validateWebhook_compares now _ _ _ _ _ _ (conj Hparse Hrest)).
      now apply reconstructedSig_printed.
    + left. rewrite (validateWebhook_keyed now _ _ _ _ _ (conj Hparse Hrest)).
      unfold reconstructedSig. now rewrite Hp.
  - intros Hraw Heq. apply Hraw.
    apply (inj (String.app timestamp)) in Heq.
    now inversion Heq.
Qed.

(** C2 (the code departs from the claim). The freshness test is
    [now - date < 60000], with no absolute value. Of the requests that carry
    the signature the verifier computes and a timestamp that [new Date]
    parses, those stamped 60 seconds or more behind the clock are rejected
    with 401 and all others are accepted: a request stamped 60 seconds or
    more ahead of the clock, which the claim rejects, is accepted however
    far ahead its timestamp lies. *)
Theorem C2_freshness_is_one_sided
        now req parsed key timestamp originalSignature reconstructed date :
  Keyed config req parsed key timestamp originalSignature ->
  reconstructedSig (Own key) timestamp (body req) = ret reconstructed ->
  Buffer_from_base64 originalSignature = Buffer_from_base64 reconstructed ->
  Date_getTime timestamp = Some date ->
  (60000 <= now - date ->
   _validateWebhook config now req
     = ret (Respond (send 401 (Text "UNAUTHORIZED"))))
  /\ (now - date < 60000 ->
      _validateWebhook config now req = ret (Next parsed))
  /\ (60000 <= date - now ->
      60000 <= Z.abs (now - date)
      /\ _validateWebhook config now req = ret (Next parsed)).
Proof.
  intros Hk Hr Hsame Hdate.
  rewrite (validateWebhook_compares now _ _ _ _ _ _ Hk Hr).
  unfold timingSafeEqual. rewrite Hsame, Nat.eqb_refl, bind_ret_l.
  rewrite Buffer_equals_refl, Hdate. cbn [andb].
  split; [|split]; intros H.
  - now apply Z.ltb_ge in H as ->.
  - now apply Z.ltb_lt in H as ->.
  - split; [lia|].
    assert (Hlt : now - date < 60000) by lia.
    now apply Z.ltb_lt in Hlt as ->.
Qed.

(** Stale and mismatched signatures of the computed signature's length
    get one and the same response. *)
Lemma validateWebhook_unauthorized
      now req parsed key timestamp originalSignature reconstructed :
  Keyed config req parsed key timestamp originalSignature ->
  reconstructedSig (Own key) timestamp (body req) = ret reconstructed ->
  length (Buffer_from_base64 originalSignature)
    = length (Buffer_from_base64 reconstructed) ->
  Buffer_equals (Buffer_from_base64 originalSignature)
                (Buffer_from_base64 reconstructed) = false
  \/ match Date_getTime timestamp with
     | Some date => 60000 <= now - date
     | None => True
     end ->
  _validateWebhook config now req
    = ret (Respond (send 401 (Text "UNAUTHORIZED"))).
Proof.
  intros Hk Hr Hlen Hbad.
  rewrite (validateWebhook_compares now _ _ _ _ _ _ Hk Hr).
  unfold timingSafeEqual. rewrite Hlen, Nat.eqb_refl, bind_ret_l.
  destruct Hbad as [-> | Hstale]; [reflexivity|].
  destruct (Date_getTime timestamp) as [date|].
  - apply Z.ltb_ge in Hstale as ->. now rewrite andb_false_r.
  - now rewrite andb_false_r.
Qed.

(** C3 (the code departs from the claim). A supplied signature whose
    decoded byte length differs from that of the computed signature does
    not get the 401 rejection: [timingSafeEqual] throws a [RangeError], the
    handler ends without sending a response, and Express answers 500. *)
Theorem C3_signature_of_other_length_throws
        now later req parsed key timestamp originalSignature reconstructed :
  Keyed config req parsed key timestamp originalSignature ->
  reconstructedSig (Own key) timestamp (body req) = ret reconstructed ->
  length (Buffer_from_base64 originalSignature)
    <> length (Buffer_from_base64 reconstructed) ->
  _validateWebhook config now req
    = throw (JS.RangeError "Input buffers must have the same byte length")
  /\ post_webhook this config now later req = ([], send 500 DefaultErrorPage).
Proof.
  intros Hk Hr Hlen.
  assert (Hv : _validateWebhook config now req
               = throw (JS.RangeError "Input buffers must have the same byte length")).
  { rewrite (validateWebhook_compares now _ _ _ _ _ _ Hk Hr).
    unfold timingSafeEqual.
    apply Nat.eqb_neq in Hlen. now rewrite Hlen. }
  split; [exact Hv|].
  unfold post_webhook. now rewrite Hv.
Qed.

End Verifier.

(* ===================================================================== *)
(** * The message manager *)
(* ===================================================================== *)

Section Manager.

Context {node : Node} {core : ElizaCore} {runtime : IAgentRuntime}
        {commonApiClient : CommonApiClient} {templates : Templates}.
Variable this : MessageManager.

Lemma generateMemoryIds_event (message : AugmentedAgentMentioned) :
  exists ids, _generateMemoryIds this (Some message) None = Some ids
              /\ roomId ids
                 = stringToUuid (community_id message ++ "-"
                                 ++ JS.Number_toString (thread_id message)
                                 ++ "-" ++ agentId)
              /\ messageId ids = stringToUuid (messageId_source message).
Proof. eexists. repeat split. Qed.

(** What holds of the derivation whatever the ids: any two events sharing
    (community_id, thread_id) map to the same roomId; the messageId is
    [stringToUuid] of [messageId_source], which is the string of the
    specification when the comment_id is absent or not zero; a thread-level
    and a comment-level event are given different such strings, hence
    different messageIds wherever [stringToUuid] does not collide; and
    redelivery of the same logical message yields the same messageId. *)
Lemma generateMemoryIds_derivation (m1 m2 : AugmentedAgentMentioned) :
  exists i1 i2,
    _generateMemoryIds this (Some m1) None = Some i1
    /\ _generateMemoryIds this (Some m2) None = Some i2
    /\ (community_id m1 = community_id m2 -> thread_id m1 = thread_id m2 ->
        roomId i1 = roomId i2)
    /\ messageId i1 = stringToUuid (messageId_source m1)
    /\ (JS.truthy_number (comment_id m1) = true ->
        messageId_source m1 = messageId_source_spec m1)
    /\ (comment_id m1 = None ->
        messageId_source m1 = messageId_source_spec m1)
    /\ (content_type m1 = thread -> content_type m2 = comment ->
        messageId_source m1 <> messageId_source m2
        /\ ((forall a b, stringToUuid a = stringToUuid b -> a = b) ->
            messageId i1 <> messageId i2))
    /\ (content_type m1 = content_type m2 -> comment_id m1 = comment_id m2 ->
        thread_id m1 = thread_id m2 -> messageId i1 = messageId i2).
Proof.
  destruct (generateMemoryIds_event m1) as (i1 & H1 & Hr1 & Hm1).
  destruct (generateMemoryIds_event m2) as (i2 & H2 & Hr2 & Hm2).
  exists i1, i2. repeat apply conj; try assumption.
  - intros Hc Ht. now rewrite Hr1, Hr2, Hc, Ht.
  - unfold messageId_source, messageId_source_spec, JS.truthy_number, JS.or_number.
    destruct (comment_id m1) as [c|]; [|discriminate].
    now destruct (c =? 0).
  - unfold messageId_source, messageId_source_spec, JS.or_number.
    now intros ->.
  - intros Ht Hc.
    assert (Hne : messageId_source m1 <> messageId_source m2).
    { unfold messageId_source. rewrite Ht, Hc. discriminate. }
    split; [exact Hne|].
    intros Hinj Heq. apply Hne, Hinj. now rewrite <- Hm1, <- Hm2.
  - intros Hc Hi Ht. rewrite Hm1, Hm2. unfold messageId_source.
    now rewrite Hc, Hi, Ht.
Qed.

(** C4 (the code departs from the claim). [message.comment_id ||
    message.thread_id] takes a comment_id of 0 for absent. The messageId of
    a comment event whose comment_id is 0 is derived from its thread_id and
    not, as the claim has it, from the comment_id that is present: it is
    the messageId of the comment whose id is that thread_id, in whatever
    thread that comment lies, and its source differs from the one under
    which the reply branch of the same function, which prints the comment
    id as it is, records comment 0. *)
Theorem C4_comment_id_zero_falls_back_to_thread_id
        (m m' : AugmentedAgentMentioned) (res : CreateCommentResponse.t) :
  content_type m = comment -> comment_id m = Some 0 -> thread_id m <> 0 ->
  content_type m' = comment -> comment_id m' = Some (thread_id m) ->
  CreateCommentResponse.id res = 0 ->
  exists i i' r,
    _generateMemoryIds this (Some m) None = Some i
    /\ _generateMemoryIds this (Some m') None = Some i'
    /\ _generateMemoryIds this None (Some res) = Some r
    /\ messageId i
       = stringToUuid ("comment-" ++ JS.Number_toString (thread_id m)
                       ++ "-" ++ agentId)
    /\ messageId i = messageId i'
    /\ messageId_source m <> messageId_source_spec m
    /\ messageId r = stringToUuid (messageId_source_spec m).
Proof.
  intros Hc Hz Ht Hc' Hi' Hres.
  do 3 eexists. repeat apply conj; try reflexivity; cbn [messageId].
  - now rewrite Hc, Hz.
  - rewrite Hc, Hc', Hz, Hi'. unfold JS.or_number.
    apply Z.eqb_neq in Ht. now rewrite Ht.
  - unfold messageId_source, messageId_source_spec. rewrite Hc, Hz.
    cbn [JS.or_number Z.eqb ContentType_toString]. intros Heq. apply Ht.
    apply (inj (String.app "comment")), (inj (String.app "-")) in Heq.
    apply append_inv_tail in Heq.
    now apply Number_toString_inj.
  - unfold messageId_source_spec. now rewrite Hres, Hc, Hz.
Qed.

(** The decision, case by case. *)
Lemma shouldRespond_self (message : AugmentedAgentMentioned) (state : State) :
  author_user_id message = commonUserId this ->
  _shouldRespond this message state
    = ([ElizaLogger debug "Skipping message from self"], Ok false).
Proof.
  intros H. unfold _shouldRespond. now rewrite H, Z.eqb_refl.
Qed.

Lemma shouldRespond_not_mentioned (message : AugmentedAgentMentioned) (state : State) :
  author_user_id message <> commonUserId this ->
  JS.includes (full_object_text message)
              (JS.Number_toString (commonUserId this)) = false ->
  _shouldRespond this message state = ret false.
Proof.
  intros Hne Hinc. unfold _shouldRespond.
  apply Z.eqb_neq in Hne. now rewrite Hne, Hinc.
Qed.

Lemma shouldRespond_mentioned (message : AugmentedAgentMentioned) (state : State) :
  author_user_id message <> commonUserId this ->
  JS.includes (full_object_text message)
              (JS.Number_toString (commonUserId this)) = true ->
  _shouldRespond this message state
    = ([GenerateShouldRespond (shouldRespondContext state)],
       match generateShouldRespond (shouldRespondContext state) with
       | Ok (Some RESPOND) => Ok true
       | Ok _ => Ok false
       | Throw e => Throw e
       end).
Proof.
  intros Hne Hinc. unfold _shouldRespond.
  apply Z.eqb_neq in Hne. rewrite Hne, Hinc. cbn [negb].
  fold (shouldRespondContext state). unfold call, bind, ret.
  destruct (generateShouldRespond (shouldRespondContext state)) as [[[]|]|];
    reflexivity.
Qed.

Lemma handleMessage_skipped now message ids state :
  recorded this now message ids state ->
  result (_shouldRespond this message state) = Ok false ->
  handleMessage this now message
    = ((recording this now message ids
        ++ trace (_shouldRespond this message state)
        ++ [ElizaLogger debug "Not responding to message";
            Evaluate (inboundMemory now message ids) state false])%list,
       evaluate (inboundMemory now message ids) state false).
Proof.
  intros (Hids & Hec & Hcm & Hcs) Hno.
  unfold handleMessage. rewrite Hids. unfold destructure.
  rewrite bind_ret_l, Hec, Hcm, Hcs. unfold elizaLogger. run.
  destruct (_shouldRespond this message state) as [t r].
  simpl in Hno. subst r. now run.
Qed.

(** The decision makes at most one call: a log entry or the classifier. *)
Lemma shouldRespond_trace (message : AugmentedAgentMentioned) (state : State) :
  trace (_shouldRespond this message state) = []
  \/ trace (_shouldRespond this message state)
     = [ElizaLogger debug "Skipping message from self"]
  \/ trace (_shouldRespond this message state)
     = [GenerateShouldRespond (shouldRespondContext state)].
Proof.
  destruct (Z.eq_dec (author_user_id message) (commonUserId this)) as [He|Hne].
  - right; left. now rewrite shouldRespond_self.
  - destruct (JS.includes (full_object_text message)
                          (JS.Number_toString (commonUserId this))) eqn:Hinc.
    + right; right. now rewrite shouldRespond_mentioned.
    + left. now rewrite shouldRespond_not_mentioned.
Qed.

Lemma shouldRespond_calls (p : Call -> bool) message state :
  p (ElizaLogger debug "Skipping message from self") = false ->
  p (GenerateShouldRespond (shouldRespondContext state)) = false ->
  count p (trace (_shouldRespond this message state)) = 0%nat.
Proof.
  intros Hl Hg.
  destruct (shouldRespond_trace message state) as [-> | [-> | ->]];
    rewrite ?count_cons, ?Hl, ?Hg; reflexivity.
Qed.


(** A message of the agent itself: whatever the collaborators answer,
    nothing is generated and nothing is published. *)
Lemma handleMessage_self now (message : AugmentedAgentMentioned) :
  author_user_id message = commonUserId this ->
  count is_GenerateMessageResponse (trace (handleMessage this now message)) = 0%nat
  /\ count is_CreateComment (trace (handleMessage this now message)) = 0%nat.
Proof.
  intros Hself.
  destruct (generateMemoryIds_event message) as (ids & Hids & _).
  unfold handleMessage. rewrite Hids. unfold destructure. rewrite bind_ret_l.
  destruct (ensureConnection _ _ _ _) as [[]|e]; run; [|now split].
  destruct (messageManager_createMemory _) as [[]|e]; run; [|now split].
  destruct (composeState _ _ _) as [state|e]; run; [|now split].
  rewrite shouldRespond_self by assumption. unfold elizaLogger. run.
  now split.
Qed.

(** C5 (amended). [_shouldRespond] applies three guards in order: an event
    written by the agent itself gives false, and [handleMessage] then
    neither generates nor publishes, whatever its text; otherwise an event
    whose full text does not contain the decimal digits of the agent's
    numeric Common user id gives false; otherwise the classifier is
    consulted and its verdict is returned: true for RESPOND, false for any
    other answer. *)
Theorem C5_shouldRespond_guards (message : AugmentedAgentMentioned)
        (state : State) :
  (author_user_id message = commonUserId this ->
   _shouldRespond this message state
     = ([ElizaLogger debug "Skipping message from self"], Ok false)
   /\ forall now,
       count is_GenerateMessageResponse
             (trace (handleMessage this now message)) = 0%nat
       /\ count is_CreateComment
                (trace (handleMessage this now message)) = 0%nat)
  /\ (author_user_id message <> commonUserId this ->
      JS.includes (full_object_text message)
                  (JS.Number_toString (commonUserId this)) = false ->
      _shouldRespond this message state = ret false)
  /\ (author_user_id message <> commonUserId this ->
      JS.includes (full_object_text message)
                  (JS.Number_toString (commonUserId this)) = true ->
      _shouldRespond this message state
        = ([GenerateShouldRespond (shouldRespondContext state)],
           match generateShouldRespond (shouldRespondContext state) with
           | Ok (Some RESPOND) => Ok true
           | Ok _ => Ok false
           | Throw e => Throw e
           end)).
Proof.
  split; [|split].
  - intros Hself. split; [now apply shouldRespond_self|].
    intros now. now apply handleMessage_self.
  - apply shouldRespond_not_mentioned.
  - apply shouldRespond_mentioned.
Qed.

(** C10. For an event of another author the mention gate passes, that is
    the classifier is consulted, if and only if the full text contains the
    decimal digits of the agent's Common user id as a substring; otherwise
    the answer is false without any call. The profile name plays no part. *)
Theorem C10_mention_gate_is_the_numeric_id (message : AugmentedAgentMentioned)
        (state : State) :
  author_user_id message <> commonUserId this ->
  ((exists pre post,
       full_object_text message
       = pre ++ JS.Number_toString (commonUserId this) ++ post)
   <-> trace (_shouldRespond this message state)
       = [GenerateShouldRespond (shouldRespondContext state)])
  /\ ((~ exists pre post,
          full_object_text message
          = pre ++ JS.Number_toString (commonUserId this) ++ post)
      -> _shouldRespond this message state = ret false)
  /\ (forall name,
         _shouldRespond {| commonUserId := commonUserId this;
                           commonProfileName := name |} message state
         = _shouldRespond this message state).
Proof.
  intros Hne. rewrite <- includes_spec.
  split; [|split]; [| |reflexivity].
  - destruct (JS.includes (full_object_text message)
                          (JS.Number_toString (commonUserId this))) eqn:Hinc.
    + now rewrite shouldRespond_mentioned.
    + rewrite shouldRespond_not_mentioned by assumption.
      split; discriminate.
  - intros Hinc. apply shouldRespond_not_mentioned; [assumption|].
    now apply not_true_is_false.
Qed.


(** The generator returns nothing: after the error is logged,
    [response.text] throws. *)
Lemma handleMessage_no_response now message ids state :
  recorded this now message ids state ->
  result (_shouldRespond this message state) = Ok true ->
  generateMessageResponse (messageHandlerContext state) = Ok None ->
  handleMessage this now message
  = ((recording this now message ids
      ++ trace (_shouldRespond this message state)
      ++ [ElizaLogger debug "[Common Client] Generating response";
          GenerateMessageResponse (messageHandlerContext state);
          ElizaLogger error "No response from generateMessageResponse"])%list,
     Throw (JS.TypeError "Cannot read properties of undefined (reading 'text')")).
Proof.
  intros (Hids & Hec & Hcm & Hcs) Hyes Hgen.
  unfold handleMessage. rewrite Hids. unfold destructure.
  rewrite bind_ret_l, Hec, Hcm, Hcs. run.
  destruct (_shouldRespond this message state) as [t r].
  simpl in Hyes. subst r. run.
  fold (messageHandlerContext state).
  unfold _generateResponse, elizaLogger. rewrite Hgen. now run.
Qed.

(** The whole pipeline when every collaborator answers. *)
Lemma handleMessage_replied now message ids state generated res resIds :
  recorded this now message ids state ->
  result (_shouldRespond this message state) = Ok true ->
  generateMessageResponse (messageHandlerContext state) = Ok (Some generated) ->
  databaseAdapter_log (inboundMemory now message ids)
                      (messageHandlerContext state) generated = Ok tt ->
  comment_createComment (thread_id message) (Content.text generated)
                        (comment_id message) = Ok res ->
  _generateMemoryIds this None (Some res) = Some resIds ->
  messageManager_createMemory (replyMemory res resIds) = Ok tt ->
  processActions (inboundMemory now message ids) [replyMemory res resIds] state
    = Ok tt ->
  handleMessage this now message
  = ((recording this now message ids
      ++ trace (_shouldRespond this message state)
      ++ [ElizaLogger debug "[Common Client] Generating response";
          GenerateMessageResponse (messageHandlerContext state);
          DatabaseLog (inboundMemory now message ids)
                      (messageHandlerContext state) generated;
          CreateComment (thread_id message) (Content.text generated)
                        (comment_id message);
          CreateMemory (replyMemory res resIds)]
      ++ (if JS.truthy_string (Content.action generated)
          then [ProcessActions (inboundMemory now message ids)
                               [replyMemory res resIds] state]
          else [])
      ++ [Evaluate (inboundMemory now message ids) state true])%list,
     evaluate (inboundMemory now message ids) state true).
Proof.
  intros (Hids & Hec & Hcm & Hcs) Hyes Hgen Hlog Hpost Hres Hcm2 Hact.
  unfold handleMessage. rewrite Hids. unfold destructure.
  rewrite bind_ret_l, Hec, Hcm, Hcs. run.
  destruct (_shouldRespond this message state) as [t r].
  simpl in Hyes. subst r. run.
  fold (messageHandlerContext state).
  unfold _generateResponse, elizaLogger. rewrite Hgen. run.
  rewrite Hlog. run. unfold response_text. run.
  rewrite Hpost. run. rewrite Hres. run. rewrite Hcm2. run.
  destruct (JS.truthy_string (Content.action generated)).
  - rewrite Hact. now run.
  - now run.
Qed.

(** [handleMessage] never fetches. *)
Lemma handleMessage_never_fetches now message :
  Forall (fun c => is_Fetch c = false) (trace (handleMessage this now message)).
Proof.
  unfold handleMessage, destructure, response_text, _generateResponse,
    _shouldRespond, elizaLogger.
  repeat first
    [ apply Forall_trace_bind; [|intros]
    | apply Forall_trace_call; reflexivity
    | apply Forall_nil
    | match goal with
      | |- context [match ?x with _ => _ end] => destruct x
      end ].
Qed.

Lemma generateMemoryIds_reply (res : CreateCommentResponse.t) :
  exists resIds,
    _generateMemoryIds this None (Some res) = Some resIds
    /\ userId resIds = agentId
    /\ roomId resIds
       = stringToUuid (CreateCommentResponse.community_id res ++ "-"
                       ++ JS.Number_toString (CreateCommentResponse.thread_id res)
                       ++ "-" ++ agentId)
    /\ messageId resIds
       = stringToUuid ("comment-"
                       ++ JS.Number_toString (CreateCommentResponse.id res)
                       ++ "-" ++ agentId).
Proof. eexists. repeat split. Qed.

(** C9 (amended). For an event of another author (author 42, agent 99)
    the self check passes. If its full text does not contain the agent's
    id, as "hi @agent" does not contain "99", the mention check fails:
    nothing is generated or published and the inbound memory is the only
    one created. If the text contains the id and the classifier answers
    RESPOND, generation is invoked and on success exactly one publish call
    is made, whose parent_id is the event's comment_id (absent for a
    thread event), and exactly two memories are created: the inbound event
    and the reply, the reply under the agent's own id with the ids derived
    by [_generateMemoryIds]. *)
Theorem C9_reply_pipeline now (message : AugmentedAgentMentioned) ids state :
  recorded this now message ids state ->
  author_user_id message <> commonUserId this ->
  (JS.includes (full_object_text message)
               (JS.Number_toString (commonUserId this)) = false ->
   handleMessage this now message
   = ((recording this now message ids
       ++ [ElizaLogger debug "Not responding to message";
           Evaluate (inboundMemory now message ids) state false])%list,
      evaluate (inboundMemory now message ids) state false))
  /\ (JS.includes (full_object_text message)
                  (JS.Number_toString (commonUserId this)) = true ->
      forall generated res,
        generateShouldRespond (shouldRespondContext state) = Ok (Some RESPOND) ->
        generateMessageResponse (messageHandlerContext state)
          = Ok (Some generated) ->
        databaseAdapter_log (inboundMemory now message ids)
                            (messageHandlerContext state) generated = Ok tt ->
        comment_createComment (thread_id message) (Content.text generated)
                              (comment_id message) = Ok res ->
        exists resIds,
          _generateMemoryIds this None (Some res) = Some resIds
          /\ Memory.userId (replyMemory res resIds) = agentId
          /\ (messageManager_createMemory (replyMemory res resIds) = Ok tt ->
              processActions (inboundMemory now message ids)
                             [replyMemory res resIds] state = Ok tt ->
              handleMessage this now message
              = ((recording this now message ids
                  ++ [GenerateShouldRespond (shouldRespondContext state);
                      ElizaLogger debug "[Common Client] Generating response";
                      GenerateMessageResponse (messageHandlerContext state);
                      DatabaseLog (inboundMemory now message ids)
                                  (messageHandlerContext state) generated;
                      CreateComment (thread_id message) (Content.text generated)
                                    (comment_id message);
                      CreateMemory (replyMemory res resIds)]
                  ++ (if JS.truthy_string (Content.action generated)
                      then [ProcessActions (inboundMemory now message ids)
                                           [replyMemory res resIds] state]
                      else [])
                  ++ [Evaluate (inboundMemory now message ids) state true])%list,
                 evaluate (inboundMemory now message ids) state true)
              /\ count is_CreateComment
                       (trace (handleMessage this now message)) = 1%nat
              /\ count is_CreateMemory
                       (trace (handleMessage this now message)) = 2%nat)).
Proof.
  intros Hrec Hne. split.
  - intros Hinc.
    pose proof (shouldRespond_not_mentioned message state Hne Hinc) as Hs.
    rewrite (handleMessage_skipped now message ids state Hrec)
      by now rewrite Hs.
    now rewrite Hs.
  - intros Hinc generated res Hverdict Hgen Hlog Hpost.
    destruct (generateMemoryIds_reply res) as (resIds & Hres & Huser & _).
    exists resIds. split; [exact Hres|]. split; [exact Huser|].
    intros Hcm2 Hact.
    pose proof (shouldRespond_mentioned message state Hne Hinc) as Hs.
    rewrite Hverdict in Hs.
    rewrite (handleMessage_replied now message ids state generated res resIds
               Hrec) by (try assumption; now rewrite Hs).
    rewrite Hs. cbn [trace fst].
    split; [reflexivity|].
    split; destruct (JS.truthy_string (Content.action generated)); reflexivity.
Qed.

End Manager.

(* ===================================================================== *)
(** * The event normalizer *)
(* ===================================================================== *)

Section Normalizer.

Context {node : Node} {core : ElizaCore} {runtime : IAgentRuntime}
        {commonApiClient : CommonApiClient} {templates : Templates}.
Variable this : MessageManager.

Lemma trace_try_catch {C A} (m : M C A) (h : JS.Error -> M C A) :
  trace (try_catch m h)
  = (trace m ++ match result m with
                | Ok _ => []
                | Throw e => trace (h e)
                end)%list.
Proof.
  destruct m as [t [a|e]]; cbn [try_catch trace result fst snd].
  - now rewrite app_nil_r.
  - now destruct (h e).
Qed.

Lemma deliver_never_fetches now parsed content :
  Forall (fun c => is_Fetch c = false) (trace (deliver this now parsed content)).
Proof.
  unfold deliver, elizaLogger.
  apply Forall_trace_bind; [apply handleMessage_never_fetches|intros].
  apply Forall_trace_bind; [now apply Forall_trace_call|intros].
  apply Forall_nil.
Qed.

Lemma delivered_never_fetches now parsed content :
  count is_Fetch (trace (try_catch (deliver this now parsed content) internal_error))
  = 0%nat.
Proof.
  rewrite trace_try_catch, count_app.
  rewrite (count_none _ _ (deliver_never_fetches now parsed content)).
  now destruct (result (deliver this now parsed content)).
Qed.

Lemma handleCommonEvent_summary now parsed :
  JS.truthy_string (content_url parsed) = false ->
  _handleCommonEvent this now parsed
  = try_catch (deliver this now parsed (object_summary parsed)) internal_error.
Proof. intros H. unfold _handleCommonEvent. now rewrite H. Qed.

Lemma handleCommonEvent_fetches now parsed url :
  content_url parsed = Some url -> url <> "" ->
  _handleCommonEvent this now parsed
  = try_catch
      (let* contentResponse := call (Fetch url) (fetch url) in
       if negb (ok contentResponse) then
         elizaLogger error "❌ [ERROR] Failed to fetch content from URL:" ;;;
         ret (send 400 (JsonError "Failed to fetch content from the provided URL"))
       else
         let* content := await (text contentResponse) in
         elizaLogger debug "✅ [INFO] Successfully fetched content from URL:" ;;;
         deliver this now parsed content)
      internal_error.
Proof.
  intros Hurl Hne. unfold _handleCommonEvent. rewrite Hurl.
  destruct url as [|c url]; [congruence|]. reflexivity.
Qed.

Lemma try_catch_call_ok {C A B} (c : C) (a : A) (k : A -> M C B)
      (h : JS.Error -> M C B) :
  try_catch (bind (call c (Ok a)) k) h
  = (c :: trace (try_catch (k a) h), result (try_catch (k a) h)).
Proof.
  rewrite bind_call_ok. destruct (k a) as [t [b|e]];
    cbn [try_catch trace result fst snd]; [reflexivity|].
  now destruct (h e).
Qed.

Lemma handleCommonEvent_fetched now parsed url resp content :
  content_url parsed = Some url -> url <> "" ->
  fetch url = Ok resp -> ok resp = true -> text resp = Ok content ->
  _handleCommonEvent this now parsed
  = (Fetch url
     :: ElizaLogger debug "✅ [INFO] Successfully fetched content from URL:"
     :: trace (try_catch (deliver this now parsed content) internal_error),
     result (try_catch (deliver this now parsed content) internal_error)).
Proof.
  intros Hurl Hne Hfetch Hok Htext.
  rewrite (handleCommonEvent_fetches now parsed url Hurl Hne).
  rewrite Hfetch, try_catch_call_ok, Hok, Htext. cbn [negb].
  rewrite bind_await_ok. unfold elizaLogger.
  now rewrite try_catch_call_ok.
Qed.

Lemma handleCommonEvent_fetch_failed now parsed url resp :
  content_url parsed = Some url -> url <> "" ->
  fetch url = Ok resp -> ok resp = false ->
  _handleCommonEvent this now parsed
  = ([Fetch url;
      ElizaLogger error "❌ [ERROR] Failed to fetch content from URL:"],
     Ok (send 400 (JsonError "Failed to fetch content from the provided URL"))).
Proof.
  intros Hurl Hne Hfetch Hok.
  rewrite (handleCommonEvent_fetches now parsed url Hurl Hne).
  rewrite Hfetch, try_catch_call_ok, Hok. reflexivity.
Qed.

Lemma handleCommonEvent_one_fetch now parsed url :
  content_url parsed = Some url -> url <> "" ->
  count is_Fetch (trace (_handleCommonEvent this now parsed)) = 1%nat.
Proof.
  intros Hurl Hne.
  destruct (fetch url) as [resp|e] eqn:Hfetch.
  - destruct (ok resp) eqn:Hok.
    + destruct (text resp) as [content|e] eqn:Htext.
      * rewrite (handleCommonEvent_fetched now parsed url resp content)
          by assumption.
        cbn [trace fst]. rewrite !count_cons, delivered_never_fetches.
        reflexivity.
      * rewrite (handleCommonEvent_fetches now parsed url Hurl Hne).
        now rewrite Hfetch, try_catch_call_ok, Hok, Htext.
    + now rewrite (handleCommonEvent_fetch_failed now parsed url resp).
  - rewrite (handleCommonEvent_fetches now parsed url Hurl Hne).
    now rewrite Hfetch.
Qed.

(** C6 (amended). For every event without content_url, or with an empty
    one, no fetch is performed and the full text handed to the message
    handler is object_summary; for every event with a non-empty
    content_url exactly one fetch is performed, and when it succeeds the
    full text is the fetched body; if the fetch response is non-success
    the event is rejected with 400, nothing is retried and the message
    handler is not invoked. *)
Theorem C6_normalization now parsed :
  (JS.truthy_string (content_url parsed) = false ->
   _handleCommonEvent this now parsed
   = try_catch (deliver this now parsed (object_summary parsed)) internal_error
   /\ count is_Fetch (trace (_handleCommonEvent this now parsed)) = 0%nat)
  /\ (forall url,
         content_url parsed = Some url -> url <> "" ->
         count is_Fetch (trace (_handleCommonEvent this now parsed)) = 1%nat
         /\ (forall resp content,
                fetch url = Ok resp -> ok resp = true ->
                text resp = Ok content ->
                _handleCommonEvent this now parsed
                = (Fetch url
                   :: ElizaLogger debug
                        "✅ [INFO] Successfully fetched content from URL:"
                   :: trace (try_catch (deliver this now parsed content)
                                       internal_error),
                   result (try_catch (deliver this now parsed content)
                                     internal_error)))
         /\ (forall resp,
                fetch url = Ok resp -> ok resp = false ->
                _handleCommonEvent this now parsed
                = ([Fetch url;
                    ElizaLogger error "❌ [ERROR] Failed to fetch content from URL:"],
                   Ok (send 400
                         (JsonError "Failed to fetch content from the provided URL"))))).
Proof.
  split.
  - intros H. rewrite (handleCommonEvent_summary now parsed H).
    split; [reflexivity | apply delivered_never_fetches].
  - intros url Hurl Hne. split; [|split].
    + now apply handleCommonEvent_one_fetch with url.
    + intros resp content. now apply handleCommonEvent_fetched.
    + intros resp. now apply handleCommonEvent_fetch_failed.
Qed.

(** C8 (the code departs from the claim). When the generator returns no
    usable result the condition is logged and no reply is published, but
    processing does not complete without an error: [handleMessage] reads
    [response.text] of the missing result and throws a TypeError, which
    the webhook handler catches and answers with 500. *)
Theorem C8_no_response_raises_an_error
        now (message : AugmentedAgentMentioned) ids state :
  recorded this now message ids state ->
  result (_shouldRespond this message state) = Ok true ->
  generateMessageResponse (messageHandlerContext state) = Ok None ->
  result (handleMessage this now message)
  = Throw (JS.TypeError "Cannot read properties of undefined (reading 'text')")
  /\ In (ElizaLogger error "No response from generateMessageResponse")
        (trace (handleMessage this now message))
  /\ count is_CreateComment (trace (handleMessage this now message)) = 0%nat
  /\ result (try_catch (deliver this now message (full_object_text message))
                       internal_error)
     = Ok (send 500 (JsonError "Internal server error")).
Proof.
  intros Hrec Hyes Hgen.
  pose proof (handleMessage_no_response this now message ids state
                Hrec Hyes Hgen) as Hrun.
  rewrite Hrun. cbn [trace result fst snd].
  split; [reflexivity|]. split; [|split].
  - rewrite !in_app_iff. right. right. cbn. auto.
  - rewrite !count_app, (shouldRespond_calls this) by reflexivity. reflexivity.
  - unfold deliver. destruct message as [parsed content].
    cbn [event full_object_text] in *. now rewrite Hrun.
Qed.

End Normalizer.

(* ===================================================================== *)
(** * The concrete deployment, run *)
(* ===================================================================== *)

Example split_header :
  JS.split "," "t=2025-01-01T00:00:00.000Z,s=abc" = ["t=2025-01-01T00:00:00.000Z"; "s=abc"].
Proof. reflexivity. Qed.

Example toString_id : JS.Number_toString 161416 = "161416".
Proof. reflexivity. Qed.

Example includes_id :
  JS.includes "Hi [@Eliza Dev 1](/profile/id/161416) what are you up to?" "161416" = true.
Proof. reflexivity. Qed.

Example split_without_comma : JS.split "," "t=1735693170000" = ["t=1735693170000"].
Proof. reflexivity. Qed.

Example mention_parses :
  AgentMentionedSchema_safeParse (JsJson Demo.mention_json) = Some Demo.mention.
Proof. reflexivity. Qed.

Example raw_bytes_fail_the_schema :
  AgentMentionedSchema_safeParse (JsBuffer Demo.mention_payload) = None.
Proof. reflexivity. Qed.

(** Proves [Keyed] for a concrete request. *)
Ltac keyed :=
  unfold Keyed; split; [reflexivity|];
  split; [eexists; split; reflexivity|];
  split; [discriminate|];
  do 4 eexists; repeat split; try reflexivity; discriminate.

(** The request Common would send, signed over the transmitted bytes. *)
Lemma C1_witness :
  let req := Demo.request "t=2025-01-01T00:59:30.000Z,s=wdrnP1vMkFxa1K8ixLz8fIdf/gTMVsJdHV18B5CMiZE=" in
  Keyed Demo.config req Demo.mention Demo.signingKey
        "2025-01-01T00:59:30.000Z" "wdrnP1vMkFxa1K8ixLz8fIdf/gTMVsJdHV18B5CMiZE="
  /\ "2025-01-01T00:59:30.000Z" ++ ".[object Object]"
     <> "2025-01-01T00:59:30.000Z" ++ "." ++ payload req.
Proof.
  intros req.
  assert (Hk : Keyed Demo.config req Demo.mention Demo.signingKey
                     "2025-01-01T00:59:30.000Z"
                     "wdrnP1vMkFxa1K8ixLz8fIdf/gTMVsJdHV18B5CMiZE=") by keyed.
  split; [exact Hk|].
  apply (C1_signature_is_over_object_Object (node:=Demo.node) (core:=Demo.answering)
           Demo.config Demo.now req _ _ _ _ Hk).
  discriminate.
Defined.

(** A request stamped one hour ahead of the clock, with the signature the
    verifier computes, is accepted. *)
Lemma C2_witness :
  let req := Demo.request "t=2025-01-01T02:00:00.000Z,s=hdvKNKP+Mt5gXU5KNtEQc1oCso0F6JYmJJf5mcYQ1UU=" in
  @Date_getTime Demo.node "2025-01-01T02:00:00.000Z" = Some 1735696800000
  /\ 60000 <= Z.abs (Demo.now - 1735696800000)
  /\ @_validateWebhook Demo.node Demo.answering Demo.config Demo.now req
     = ret (Next Demo.mention).
Proof.
  intros req. split; [reflexivity|].
  apply (C2_freshness_is_one_sided (node:=Demo.node) (core:=Demo.answering)
           Demo.config Demo.now req Demo.mention Demo.signingKey
           "2025-01-01T02:00:00.000Z"
           "hdvKNKP+Mt5gXU5KNtEQc1oCso0F6JYmJJf5mcYQ1UU="
           "hdvKNKP+Mt5gXU5KNtEQc1oCso0F6JYmJJf5mcYQ1UU="
           1735696800000).
  - keyed.
  - reflexivity.
  - reflexivity.
  - reflexivity.
  - vm_compute. discriminate.
Defined.

(** A request 30 seconds old with the signature the verifier computes is
    accepted; one 60 minutes old is turned away. *)
Example fresh_request_is_accepted :
  @_validateWebhook Demo.node Demo.answering Demo.config Demo.now
    (Demo.request "t=2025-01-01T00:59:30.000Z,s=Q1TWynuJ0ZkVBq91OL3FRfkb8Ji1Nac1v7tiw92euqU=")
  = ret (Next Demo.mention).
Proof. reflexivity. Qed.

Example stale_request_is_rejected :
  @_validateWebhook Demo.node Demo.answering Demo.config Demo.now
    (Demo.request "t=2025-01-01T00:00:00.000Z,s=oPNvyF8qnH6cEKe08nJ9svZBz+fgNjyi0UhBXS+C0+o=")
  = ret (Respond (send 401 (Text "UNAUTHORIZED"))).
Proof. reflexivity. Qed.

(** A fresh request whose signature decodes to three bytes. *)
Lemma C3_witness :
  let req := Demo.request "t=2025-01-01T00:59:30.000Z,s=AAAA" in
  @_validateWebhook Demo.node Demo.answering Demo.config Demo.now req
  = throw (JS.RangeError "Input buffers must have the same byte length")
  /\ @post_webhook Demo.node Demo.answering Demo.answeringRuntime Demo.api
       Demo.templates Demo.manager Demo.config Demo.now Demo.now req
     = ([], send 500 DefaultErrorPage).
Proof.
  intros req.
  apply (C3_signature_of_other_length_throws
           (node:=Demo.node) (core:=Demo.answering)
           Demo.manager Demo.config Demo.now Demo.now req Demo.mention
           Demo.signingKey "2025-01-01T00:59:30.000Z" "AAAA"
           "Q1TWynuJ0ZkVBq91OL3FRfkb8Ji1Nac1v7tiw92euqU=").
  - keyed.
  - reflexivity.
  - vm_compute. discriminate.
Defined.

(** What Common signs, the transmitted bytes, is not what the verifier
    checks: the genuine request is turned away. *)
Example genuine_signature_is_rejected :
  @_validateWebhook Demo.node Demo.answering Demo.config Demo.now
    (Demo.request "t=2025-01-01T00:59:30.000Z,s=wdrnP1vMkFxa1K8ixLz8fIdf/gTMVsJdHV18B5CMiZE=")
  = ret (Respond (send 401 (Text "UNAUTHORIZED"))).
Proof. reflexivity. Qed.

(** One header opens the door to any body of the same community. *)
Example signature_binds_no_body :
  @_validateWebhook Demo.node Demo.answering Demo.config Demo.now
    {| body := JsJson (JObj [("community_id", JStr "common");
                             ("profile_name", JStr "Mallory");
                             ("profile_url", JStr "");
                             ("thread_title", JStr "");
                             ("object_url", JStr "");
                             ("object_summary", JStr "anything at all 99");
                             ("content_type", JStr "comment");
                             ("thread_id", JNum 1);
                             ("comment_id", JNum 2);
                             ("author_user_id", JNum 1)]);
       x_knock_signature :=
         Some "t=2025-01-01T00:59:30.000Z,s=Q1TWynuJ0ZkVBq91OL3FRfkb8Ji1Nac1v7tiw92euqU=";
       payload := "" |}
  = ret (Next {| community_id := "common";
                 profile_name := "Mallory";
                 profile_url := "";
                 thread_title := "";
                 object_url := "";
                 object_summary := "anything at all 99";
                 content_url := None;
                 content_type := comment;
                 thread_id := 1;
                 comment_id := Some 2;
                 author_user_id := 1 |}).
Proof. reflexivity. Qed.

(** A header without a comma. *)
Example header_without_signature_part_throws :
  @_validateWebhook Demo.node Demo.answering Demo.config Demo.now
    (Demo.request "t=2025-01-01T00:59:30.000Z")
  = throw (JS.TypeError "Cannot read properties of undefined (reading 'substring')").
Proof. reflexivity. Qed.

(** [new Date] of a string of digits is an invalid date: a timestamp in
    unix milliseconds never passes, whatever the signature. *)
Example unix_millisecond_timestamp_is_rejected :
  @_validateWebhook Demo.node Demo.answering Demo.config Demo.now
    (Demo.request "t=1735693170000,s=6K/hxq2mZc+l1ssa4J98LGE/QbKY+qwK7pdCwy1TQgo=")
  = ret (Respond (send 401 (Text "UNAUTHORIZED"))).
Proof. reflexivity. Qed.

(** A community id that names a member of [Object.prototype] finds a key
    that is no string. *)
Example inherited_member_is_no_key :
  @_validateWebhook Demo.node Demo.answering Demo.config Demo.now
    {| body := JsJson (JObj [("community_id", JStr "constructor");
                             ("profile_name", JStr "Tim");
                             ("profile_url", JStr "");
                             ("thread_title", JStr "");
                             ("object_url", JStr "");
                             ("object_summary", JStr "hi");
                             ("content_type", JStr "thread");
                             ("thread_id", JNum 7);
                             ("author_user_id", JNum 42)]);
       x_knock_signature := Some "t=2025-01-01T00:59:30.000Z,s=AAAA";
       payload := "" |}
  = throw (JS.TypeError "The 'key' argument must be of type string").
Proof. reflexivity. Qed.

Example unknown_community_is_unauthorized :
  @_validateWebhook Demo.node Demo.answering
    {| COMMON_API_KEY := "api-key"; COMMON_WALLET_ADDRESS := "0xA9e7";
       COMMON_API_URL := None; COMMON_WEBHOOK_PORT := 3001;
       COMMON_WEBHOOK_SIGNING_KEYS := Some {[ "other" := Demo.signingKey ]} |}
    Demo.now (Demo.request "t=2025-01-01T00:59:30.000Z,s=AAAA")
  = ([ElizaLogger warn "Signing key not found for community: "],
     Ok (Respond UNAUTHORIZED)).
Proof. reflexivity. Qed.

(** A comment whose comment_id is 0 gets its messageId from its thread_id,
    and shares it with comment 7 of another thread. *)
Example comment_id_zero_is_taken_for_absent :
  comment_id Demo.commentZero = Some 0
  /\ @messageId_source Demo.answering Demo.answeringRuntime Demo.commentZero
     = "comment-7-agent-uuid"
  /\ @messageId_source_spec Demo.answering Demo.answeringRuntime Demo.commentZero
     = "comment-0-agent-uuid"
  /\ (content_type Demo.commentZero, comment_id Demo.commentZero)
     <> (content_type Demo.commentSeven, comment_id Demo.commentSeven)
  /\ option_map messageId
       (@_generateMemoryIds Demo.answering Demo.answeringRuntime Demo.manager
          (Some (Demo.inFull Demo.commentZero)) None)
     = option_map messageId
       (@_generateMemoryIds Demo.answering Demo.answeringRuntime Demo.manager
          (Some (Demo.inFull Demo.commentSeven)) None).
Proof.
  repeat split; try reflexivity. discriminate.
Qed.

(** Comment 0 of thread 7, comment 7 of thread 3, and the reply that Common
    numbers 0. *)
Lemma C4_witness :
  option_map messageId
    (@_generateMemoryIds Demo.answering Demo.answeringRuntime Demo.manager
       (Some (Demo.inFull Demo.commentZero)) None)
  = option_map messageId
      (@_generateMemoryIds Demo.answering Demo.answeringRuntime Demo.manager
         (Some (Demo.inFull Demo.commentSeven)) None)
  /\ @messageId_source Demo.answering Demo.answeringRuntime Demo.commentZero
     <> @messageId_source_spec Demo.answering Demo.answeringRuntime
          Demo.commentZero
  /\ option_map messageId
       (@_generateMemoryIds Demo.answering Demo.answeringRuntime Demo.manager
          None (Some Cases.commentNumberedZero))
     = Some (@stringToUuid Demo.answering
               (@messageId_source_spec Demo.answering Demo.answeringRuntime
                  Demo.commentZero)).
Proof.
  assert (H7 : thread_id (Demo.inFull Demo.commentZero) <> 0) by discriminate.
  destruct (C4_comment_id_zero_falls_back_to_thread_id
              (core:=Demo.answering) (runtime:=Demo.answeringRuntime)
              Demo.manager (Demo.inFull Demo.commentZero)
              (Demo.inFull Demo.commentSeven) Cases.commentNumberedZero
              eq_refl eq_refl H7 eq_refl eq_refl eq_refl)
    as (i & i' & r & Hi & Hi' & Hr & _ & Heq & Hne & Hreply).
  rewrite Hi, Hi', Hr. cbn [option_map].
  split; [now rewrite Heq|]. split; [exact Hne | now rewrite Hreply].
Defined.

(** A thread event and a comment event, under an injective [stringToUuid]. *)
Example thread_and_comment_differ :
  exists i1 i2,
    @_generateMemoryIds Demo.answering Demo.answeringRuntime Demo.manager
      (Some (Demo.inFull Demo.mention)) None = Some i1
    /\ @_generateMemoryIds Demo.answering Demo.answeringRuntime Demo.manager
         (Some (Demo.inFull Demo.commentSeven)) None = Some i2
    /\ messageId i1 <> messageId i2.
Proof.
  destruct (generateMemoryIds_derivation (core:=Demo.answering)
              (runtime:=Demo.answeringRuntime) Demo.manager
              (Demo.inFull Demo.mention) (Demo.inFull Demo.commentSeven))
    as (i1 & i2 & H1 & H2 & _ & _ & _ & _ & Hdiff & _).
  exists i1, i2. split; [exact H1|]. split; [exact H2|].
  apply (Hdiff eq_refl eq_refl).
  intros a b H. now inversion H.
Qed.

(** The agent's own thread, which contains its id. *)
Lemma C5_witness :
  @_shouldRespond Demo.answering Demo.answeringRuntime Demo.templates Demo.manager
    (Demo.inFull Demo.ownThread)
    ("I am [@agent](/profile/id/99)" : @State Demo.answering)
  = ([ElizaLogger debug "Skipping message from self"], Ok false)
  /\ count is_CreateComment
       (trace (@handleMessage Demo.node Demo.answering Demo.answeringRuntime Demo.api
                 Demo.templates Demo.manager Demo.now (Demo.inFull Demo.ownThread)))
     = 0%nat.
Proof.
  destruct (C5_shouldRespond_guards (node:=Demo.node) (core:=Demo.answering)
              (runtime:=Demo.answeringRuntime) (commonApiClient:=Demo.api)
              (templates:=Demo.templates) Demo.manager
              (Demo.inFull Demo.ownThread)
              ("I am [@agent](/profile/id/99)" : @State Demo.answering))
    as (Hself & _).
  destruct (Hself eq_refl) as [Hs Hh]. split; [exact Hs|].
  exact (proj2 (Hh Demo.now)).
Defined.

(** "hi @agent" by user 42 names the agent, and the classifier would answer
    RESPOND: the decision is false and the classifier is not consulted.
    "order 1990 units" names nobody: the classifier is consulted and its
    RESPOND is returned. *)
Lemma C5_a_reference_to_the_agent_is_not_the_test :
  (author_user_id Demo.mention <> commonUserId Demo.manager
   /\ JS.includes (object_summary Demo.mention)
                  ("@" ++ commonProfileName Demo.manager) = true
   /\ @generateShouldRespond Demo.answering
        (@shouldRespondContext Demo.answering Demo.answeringRuntime
           Demo.templates ("hi @agent" : @State Demo.answering))
      = Ok (Some RESPOND)
   /\ @_shouldRespond Demo.answering Demo.answeringRuntime Demo.templates
        Demo.manager (Demo.inFull Demo.mention)
        ("hi @agent" : @State Demo.answering)
      = ret false)
  /\ (author_user_id Cases.order <> commonUserId Demo.manager
      /\ JS.includes (object_summary Cases.order) "@" = false
      /\ JS.includes (object_summary Cases.order)
                     (commonProfileName Demo.manager) = false
      /\ @_shouldRespond Demo.answering Demo.answeringRuntime Demo.templates
           Demo.manager (Demo.inFull Cases.order)
           ("order 1990 units" : @State Demo.answering)
         = ([GenerateShouldRespond "decide:order 1990 units"], Ok true)).
Proof. repeat split; first [reflexivity | discriminate]. Qed.


(** The generator returns nothing. *)
Lemma C8_witness :
  result (@handleMessage Demo.node Demo.mute Demo.muteRuntime Demo.api
            Demo.templates Demo.manager Demo.now (Demo.inFull Demo.mentionById))
  = Throw (JS.TypeError "Cannot read properties of undefined (reading 'text')")
  /\ result (@_handleCommonEvent Demo.node Demo.mute Demo.muteRuntime Demo.api
               Demo.templates Demo.manager Demo.now Demo.mentionById)
     = Ok (send 500 (JsonError "Internal server error")).
Proof.
  destruct (C8_no_response_raises_an_error
              (node:=Demo.node) (core:=Demo.mute) (runtime:=Demo.muteRuntime)
              (commonApiClient:=Demo.api) (templates:=Demo.templates)
              Demo.manager Demo.now (Demo.inFull Demo.mentionById) Demo.ids
              ("hi [@agent](/profile/id/99)" : @State Demo.mute))
    as (Hthrow & _ & _ & Hanswer).
  - repeat split.
  - reflexivity.
  - reflexivity.
  - split; [exact Hthrow | exact Hanswer].
Defined.

(** A mention that carries the agent's id is answered once. *)
Lemma C9_witness :
  count is_CreateComment
    (trace (@handleMessage Demo.node Demo.answering Demo.answeringRuntime Demo.api
              Demo.templates Demo.manager Demo.now (Demo.inFull Demo.mentionById)))
  = 1%nat
  /\ count is_CreateMemory
       (trace (@handleMessage Demo.node Demo.answering Demo.answeringRuntime Demo.api
                 Demo.templates Demo.manager Demo.now (Demo.inFull Demo.mentionById)))
     = 2%nat.
Proof.
  destruct (C9_reply_pipeline
              (node:=Demo.node) (core:=Demo.answering)
              (runtime:=Demo.answeringRuntime) (commonApiClient:=Demo.api)
              (templates:=Demo.templates) Demo.manager Demo.now
              (Demo.inFull Demo.mentionById) Demo.ids
              ("hi [@agent](/profile/id/99)" : @State Demo.answering))
    as [_ Hreply].
  - repeat split.
  - discriminate.
  - destruct (Hreply eq_refl Demo.reply _ eq_refl eq_refl eq_refl eq_refl)
      as (resIds & _ & _ & Hrun).
    exact (proj2 (Hrun eq_refl eq_refl)).
Defined.

(** The scenario of the specification: "hi @agent", author 42, agent 99. *)
Lemma C9_hi_agent_is_not_answered :
  author_user_id Demo.mention = 42 /\ commonUserId Demo.manager = 99
  /\ full_object_text (Demo.inFull Demo.mention) = "hi @agent"
  /\ count is_GenerateMessageResponse
       (trace (@handleMessage Demo.node Demo.answering Demo.answeringRuntime Demo.api
                 Demo.templates Demo.manager Demo.now (Demo.inFull Demo.mention)))
     = 0%nat
  /\ count is_CreateComment
       (trace (@handleMessage Demo.node Demo.answering Demo.answeringRuntime Demo.api
                 Demo.templates Demo.manager Demo.now (Demo.inFull Demo.mention)))
     = 0%nat
  /\ count is_CreateMemory
       (trace (@handleMessage Demo.node Demo.answering Demo.answeringRuntime Demo.api
                 Demo.templates Demo.manager Demo.now (Demo.inFull Demo.mention)))
     = 1%nat.
Proof. repeat split. Qed.

(** An event whose content_url is the empty string. *)
Lemma C6_empty_content_url_is_not_fetched :
  content_url Demo.emptyUrl = Some ""
  /\ count is_Fetch
       (trace (@_handleCommonEvent Demo.node Demo.answering Demo.answeringRuntime
                 Demo.api Demo.templates Demo.manager Demo.now Demo.emptyUrl))
     = 0%nat
  /\ @_handleCommonEvent Demo.node Demo.answering Demo.answeringRuntime
       Demo.api Demo.templates Demo.manager Demo.now Demo.emptyUrl
     = try_catch
         (@deliver Demo.node Demo.answering Demo.answeringRuntime Demo.api
            Demo.templates Demo.manager Demo.now Demo.emptyUrl
            (object_summary Demo.emptyUrl))
         internal_error.
Proof. repeat split. Qed.

(** An overflowing event whose content is served, and one whose content
    is gone. *)
Lemma C6_witness :
  count is_Fetch
    (trace (@_handleCommonEvent Demo.node Demo.answering Demo.answeringRuntime
              Demo.api Demo.templates Demo.manager Demo.now Demo.overflow))
  = 1%nat
  /\ @_handleCommonEvent Demo.node Demo.answering Demo.answeringRuntime
       Demo.api Demo.templates Demo.manager Demo.now Demo.gone
     = ([Fetch "https://r2.common.xyz/gone";
         ElizaLogger error "❌ [ERROR] Failed to fetch content from URL:"],
        Ok (send 400 (JsonError "Failed to fetch content from the provided URL"))).
Proof.
  split.
  - destruct (C6_normalization (node:=Demo.node) (core:=Demo.answering)
                (runtime:=Demo.answeringRuntime) (commonApiClient:=Demo.api)
                (templates:=Demo.templates) Demo.manager Demo.now Demo.overflow)
      as [_ Hurl].
    refine (proj1 (Hurl "https://r2.common.xyz/full" eq_refl _)). discriminate.
  - destruct (C6_normalization (node:=Demo.node) (core:=Demo.answering)
                (runtime:=Demo.answeringRuntime) (commonApiClient:=Demo.api)
                (templates:=Demo.templates) Demo.manager Demo.now Demo.gone)
      as [_ Hurl].
    refine (proj2 (proj2 (Hurl "https://r2.common.xyz/gone" eq_refl _))
              {| ok := false; status := 404; text := Ok "Not Found" |}
              eq_refl eq_refl).
    discriminate.
Defined.

(** The mention gate opens on the digits of the id. *)
Lemma C10_witness :
  trace (@_shouldRespond Demo.answering Demo.answeringRuntime Demo.templates
           Demo.manager (Demo.inFull Demo.mentionById)
           ("state" : @State Demo.answering))
  = [GenerateShouldRespond "decide:state"].
Proof.
  apply (C10_mention_gate_is_the_numeric_id
           (core:=Demo.answering) (runtime:=Demo.answeringRuntime)
           (templates:=Demo.templates) Demo.manager
           (Demo.inFull Demo.mentionById) ("state" : @State Demo.answering)).
  - discriminate.
  - exists "hi [@agent](/profile/id/", ")". reflexivity.
Defined.

(* ===================================================================== *)
(** * Further properties of the verifier *)
(* ===================================================================== *)

(** One step of a run: the outcome of the next collaborator, or the next
    case distinction of the code. *)
Ltac step :=
  match goal with
  | |- context [bind (call _ ?r) _] =>
      lazymatch r with
      | Ok _ => fail
      | Throw _ => fail
      | _ => destruct r as [?|?] eqn:?
      end
  | |- context [bind (?t, ?r) _] =>
      lazymatch r with
      | Ok _ => fail
      | Throw _ => fail
      | _ => destruct r as [?|?] eqn:?
      end
  | |- context [match ?x with _ => _ end] => destruct x eqn:?
  end.

(** Every run of a computation, one goal for each. *)
Ltac all_runs := repeat (run; try step).

Lemma Buffer_equals_eq (a b : list Byte.byte) :
  Buffer_equals a b = true -> a = b.
Proof.
  revert b. induction a as [|x a IH]; intros [|y b] H; try discriminate;
    [reflexivity|].
  simpl in H. apply andb_true_iff in H as [Hxy Hab].
  apply Byte.byte_dec_bl in Hxy. subst. f_equal. now apply IH.
Qed.

Lemma prefix_comma (c : ascii) (s : string) :
  String.prefix "," (String c s) = Ascii.eqb c ",".
Proof.
  change (String.prefix "," (String c s))
    with (match ascii_dec "," c with
          | left _ => String.prefix "" s
          | right _ => false
          end).
  destruct (ascii_dec "," c) as [<-|Hne].
  - now destruct s.
  - symmetry. apply Ascii.eqb_neq. congruence.
Qed.

Lemma includes_comma_cons (c : ascii) (s : string) :
  JS.includes (String c s) "," = Ascii.eqb c "," || JS.includes s ",".
Proof.
  change (JS.includes (String c s) ",")
    with (String.prefix "," (String c s) || JS.includes s ",").
  now rewrite prefix_comma.
Qed.

(** [split] leaves a string without comma whole, and cuts at the first
    comma. *)
Lemma split_no_comma (s : string) :
  JS.includes s "," = false -> JS.split "," s = [s].
Proof.
  induction s as [|c s IH]; [reflexivity|].
  rewrite includes_comma_cons. intros H. apply orb_false_iff in H as [Hc Hs].
  cbn. rewrite Hc, (IH Hs). reflexivity.
Qed.

Lemma split_at_comma (a b : string) :
  JS.includes a "," = false ->
  JS.split "," (a ++ "," ++ b) = a :: JS.split "," b.
Proof.
  induction a as [|c a IH].
  - intros _. reflexivity.
  - rewrite includes_comma_cons. intros H. apply orb_false_iff in H as [Hc Ha].
    change (String c a ++ "," ++ b) with (String c (a ++ "," ++ b)).
    cbn [JS.split]. rewrite Hc, (IH Ha). reflexivity.
Qed.

Section VerifierRuns.

Context {node : Node} {core : ElizaCore}.
Variable config : CommonEnv.

Lemma validateWebhook_trace now req :
  trace (_validateWebhook config now req) = []
  \/ exists msg, trace (_validateWebhook config now req) = [ElizaLogger warn msg].
Proof.
  unfold _validateWebhook, elizaLogger, header_part, reconstructedSig,
    timingSafeEqual, await.
  all_runs; cbn [call trace fst]; eauto.
Qed.

Lemma validateWebhook_accepts now req p :
  result (_validateWebhook config now req) = Ok (Next p) <->
  AgentMentionedSchema_safeParse (body req) = Some p
  /\ (COMMON_WEBHOOK_SIGNING_KEYS config = None
      \/ exists key timestamp originalSignature date,
           Keyed config req p key timestamp originalSignature
           /\ ToString (body req) = Ok "[object Object]"
           /\ Buffer_from_base64 originalSignature
              = Buffer_from_base64
                  (createHmac_sha256_base64 key (timestamp ++ ".[object Object]"))
           /\ Date_getTime timestamp = Some date /\ now - date < 60000).
Proof.
  split.
  - unfold _validateWebhook.
    destruct (AgentMentionedSchema_safeParse (body req)) as [parsed|] eqn:Hparse;
      [|discriminate].
    destruct (COMMON_WEBHOOK_SIGNING_KEYS config) as [keys|] eqn:Hkeys.
    2:{ unfold elizaLogger. run. intros H. inversion H. auto. }
    unfold member.
    destruct (keys !! community_id parsed) as [key|] eqn:Hkey.
    2:{ destruct (existsb _ _).
        - destruct (x_knock_signature req) as [[|c sig]|]; cbn; try discriminate.
          unfold header_part.
          destruct (JS.split "," (String c sig) !! 0%nat); run; [|discriminate].
          destruct (JS.split "," (String c sig) !! 1%nat); run; [|discriminate].
          unfold reconstructedSig, await.
          destruct (ToString (body req)); run; discriminate.
        - discriminate. }
    destruct key as [|k0 key]; [discriminate|].
    destruct (x_knock_signature req) as [[|c sig]|] eqn:Hsig;
      cbn [JS.truthy_string String.eqb negb]; try discriminate.
    unfold default, id; cbn [from_option]. unfold header_part.
    destruct (JS.split "," (String c sig)) as [|p0 [|p1 rest]] eqn:Hsplit;
      cbn [lookup list_lookup]; run; try discriminate.
    destruct (ToString_schema_valid _ _ Hparse) as [Hp|Hp].
    2:{ unfold reconstructedSig. rewrite Hp. unfold await. run. discriminate. }
    rewrite (reconstructedSig_printed _ _ _ _ Hp). run.
    unfold timingSafeEqual.
    destruct (_ =? _)%nat; run; [|discriminate].
    destruct (Buffer_equals _ _) eqn:Heq; cbn [andb]; [|discriminate].
    destruct (Date_getTime (JS.substring 2 p0)) as [date|] eqn:Hdate;
      [|discriminate].
    destruct (now - date <? 60000) eqn:Hfresh; [|discriminate].
    intros H. inversion H; subst p.
    split; [first [reflexivity | exact Hparse]|]. right.
    exists (String k0 key), (JS.substring 2 p0), (JS.substring 2 p1), date.
    split.
    { split; [first [reflexivity | exact Hparse]|]. split; [eauto|].
      split; [discriminate|].
      exists (String c sig), p0, p1, rest. repeat split; auto. }
    split; [exact Hp|]. split; [now apply Buffer_equals_eq|].
    split; [exact Hdate|]. now apply Z.ltb_lt.
  - intros [Hparse [Hnone
                   | (key & ts & orig & date & Hk & Hp & Hsame & Hdate & Hfresh)]].
    + unfold _validateWebhook. rewrite Hparse, Hnone. reflexivity.
    + rewrite (validateWebhook_compares config now req p key ts orig _ Hk
                 (reconstructedSig_printed _ _ _ _ Hp)).
      unfold timingSafeEqual. rewrite Hsame, Nat.eqb_refl. run.
      rewrite Buffer_equals_refl, Hdate.
      apply Z.ltb_lt in Hfresh. now rewrite Hfresh.
Qed.

Lemma validateWebhook_invalid now req :
  AgentMentionedSchema_safeParse (body req) = None ->
  _validateWebhook config now req
  = ([ElizaLogger warn "Invalid request body: "],
     Ok (Respond (send 400 (JsonSchemaError "Invalid request body")))).
Proof. intros H. unfold _validateWebhook. now rewrite H. Qed.

Lemma validateWebhook_401 now req p r :
  AgentMentionedSchema_safeParse (body req) = Some p ->
  result (_validateWebhook config now req) = Ok (Respond r) ->
  r = UNAUTHORIZED \/ r = send 401 (Text "UNAUTHORIZED").
Proof.
  intros Hp. unfold _validateWebhook. rewrite Hp.
  unfold elizaLogger, header_part, reconstructedSig, timingSafeEqual, await.
  all_runs; cbn [call result snd]; intros H; inversion H; auto.
Qed.

(** X1. The verifier calls next() exactly when the body passes the schema
    and either no signing keys are configured at all, or a non-empty key is
    registered for the community, the header has its two parts, the
    signature decodes to the bytes of the HMAC of "<timestamp>.[object
    Object]" and the timestamp parses to a date less than 60 seconds before
    the clock. The body passed on is the parsed one. *)
Theorem verifier_accepts_exactly_when now req p :
  result (_validateWebhook config now req) = Ok (Next p) <->
  AgentMentionedSchema_safeParse (body req) = Some p
  /\ (COMMON_WEBHOOK_SIGNING_KEYS config = None
      \/ exists key timestamp originalSignature date,
           Keyed config req p key timestamp originalSignature
           /\ ToString (body req) = Ok "[object Object]"
           /\ Buffer_from_base64 originalSignature
              = Buffer_from_base64
                  (createHmac_sha256_base64 key (timestamp ++ ".[object Object]"))
           /\ Date_getTime timestamp = Some date /\ now - date < 60000).
Proof. apply validateWebhook_accepts. Qed.

(** X2. A body that fails the schema is answered 400 "Invalid request
    body" before keys or header are looked at; every other response the
    verifier sends is a 401, as the JSON error UNAUTHORIZED or as the text
    UNAUTHORIZED. *)
Theorem verifier_rejections now req :
  (AgentMentionedSchema_safeParse (body req) = None ->
   _validateWebhook config now req
   = ([ElizaLogger warn "Invalid request body: "],
      Ok (Respond (send 400 (JsonSchemaError "Invalid request body")))))
  /\ (forall p r,
         AgentMentionedSchema_safeParse (body req) = Some p ->
         result (_validateWebhook config now req) = Ok (Respond r) ->
         r = send 401 (JsonError "UNAUTHORIZED")
         \/ r = send 401 (Text "UNAUTHORIZED")).
Proof.
  split; [apply validateWebhook_invalid|].
  intros p r Hp Hr. exact (validateWebhook_401 now req p r Hp Hr).
Qed.

(** X3. Whatever the request, the verifier calls no collaborator but the
    logger, and the logger at most once, with a warning. *)
Theorem verifier_only_logs now req :
  trace (_validateWebhook config now req) = []
  \/ exists msg, trace (_validateWebhook config now req) = [ElizaLogger warn msg].
Proof. apply validateWebhook_trace. Qed.

(** X4. The signature binds no body: when a request is accepted, every
    other schema-valid body of the same community (without a member named
    toString) is accepted under the same header. *)
Theorem verifier_binds_no_body now req1 req2 p1 p2 :
  AgentMentionedSchema_safeParse (body req1) = Some p1 ->
  AgentMentionedSchema_safeParse (body req2) = Some p2 ->
  community_id p1 = community_id p2 ->
  x_knock_signature req1 = x_knock_signature req2 ->
  ToString (body req2) = Ok "[object Object]" ->
  result (_validateWebhook config now req1) = Ok (Next p1) ->
  result (_validateWebhook config now req2) = Ok (Next p2).
Proof.
  intros H1 H2 Hc Hh Hs Hacc.
  apply validateWebhook_accepts in Hacc
    as [_ [Hnone | (key & ts & orig & date & Hk & _ & Hsame & Hdate & Hfresh)]];
    apply validateWebhook_accepts; (split; [exact H2|]); [now left|].
  right. exists key, ts, orig, date. repeat split; try assumption.
  - destruct Hk as (_ & (keys & Hkeys & Hkey) & _). exists keys.
    now rewrite <- Hc.
  - now destruct Hk as (_ & _ & Hne & _).
  - destruct Hk as (_ & _ & _ & sig & a & b & rest & Hsig & Hrest).
    exists sig, a, b, rest. now rewrite <- Hh.
Qed.

(** X25. A header made of two characters, a timestamp, a comma, two
    characters and a signature is read back as that timestamp and that
    signature, when neither holds a comma: the two characters before each
    part are dropped whatever they are. *)
Theorem header_is_read_back (t s : string) (a b c d : ascii) :
  JS.includes t "," = false -> JS.includes s "," = false ->
  a <> ","%char -> b <> ","%char -> c <> ","%char -> d <> ","%char ->
  header_part (String a (String b t) ++ "," ++ String c (String d s)) 0 = ret t
  /\ header_part (String a (String b t) ++ "," ++ String c (String d s)) 1 = ret s.
Proof.
  intros Ht Hs Ha Hb Hc Hd. unfold header_part.
  rewrite split_at_comma.
  2:{ rewrite !includes_comma_cons, Ht.
      apply Ascii.eqb_neq in Ha, Hb. now rewrite Ha, Hb. }
  rewrite split_no_comma.
  2:{ rewrite !includes_comma_cons, Hs.
      apply Ascii.eqb_neq in Hc, Hd. now rewrite Hc, Hd. }
  split; reflexivity.
Qed.

End VerifierRuns.

Section Tenants.

Context {node : Node} {core : ElizaCore}.

(** X5. The outcome of the verification depends on the configured keys
    only through the key of the event's own community: two key maps that
    agree there give the same result, whatever they hold for other
    communities. *)
Theorem verifier_other_tenants config1 config2 keys1 keys2 now req p :
  AgentMentionedSchema_safeParse (body req) = Some p ->
  COMMON_WEBHOOK_SIGNING_KEYS config1 = Some keys1 ->
  COMMON_WEBHOOK_SIGNING_KEYS config2 = Some keys2 ->
  keys1 !! community_id p = keys2 !! community_id p ->
  _validateWebhook config1 now req = _validateWebhook config2 now req.
Proof.
  intros Hp H1 H2 Hk. unfold _validateWebhook, member.
  now rewrite Hp, H1, H2, Hk.
Qed.

End Tenants.

(* ===================================================================== *)
(** * Further properties of the schema *)
(* ===================================================================== *)

(** The code units of a string are never more than its bytes. *)
Lemma length_le_bytes (s : string) : (JS.length s <= String.length s)%nat.
Proof.
  enough (H : (JS.length s <= String.length s)%nat
              /\ forall c, (JS.length (String c s) <= S (String.length s))%nat)
    by apply H.
  induction s as [|a s [IH IHc]].
  - split; [apply Nat.le_refl|].
    intros c. cbn. destruct (JS.continuation c), (JS.lead4 c); lia.
  - split; [apply IHc|].
    intros c. specialize (IHc a).
    change (JS.length (String c (String a s)))
      with (if JS.continuation c then JS.length (String a s)
            else if JS.lead4 c then S (S (JS.length s))
                 else S (JS.length (String a s))).
    change (String.length (String a s)) with (S (String.length s)).
    destruct (JS.continuation c), (JS.lead4 c); lia.
Qed.

Example length_of_ascii : JS.length "agent" = 5%nat.
Proof. reflexivity. Qed.

(** The euro sign takes three bytes and one code unit; an emoji takes four
    bytes and two code units. *)
Example length_of_euro_sign : String.length "€" = 3%nat /\ JS.length "€" = 1%nat.
Proof. split; reflexivity. Qed.

Example length_of_emoji : String.length "😀" = 4%nat /\ JS.length "😀" = 2%nat.
Proof. split; reflexivity. Qed.

(** A name of 90 euro signs has 270 bytes and 90 code units: it passes
    [max(255)]. *)
Example ninety_euro_signs_are_accepted :
  let name := String.concat "" (repeat "€" 90) in
  String.length name = 270%nat
  /\ JS.length name = 90%nat
  /\ Zod.string_max 255 (Some (JStr name)) = Some name.
Proof. repeat split. Qed.

Lemma content_type_literal (v : option Json) (c : ContentType) :
  Zod.content_type_ v = Some c -> v = Some (JStr (ContentType_toString c)).
Proof.
  unfold Zod.content_type_, Zod.string_.
  destruct v as [[| | |s| |]|]; try discriminate.
  destruct (String.eqb s "thread") eqn:Ht.
  - intros H. inversion H. now apply String.eqb_eq in Ht as ->.
  - destruct (String.eqb s "comment") eqn:Hc; [|discriminate].
    intros H. inversion H. now apply String.eqb_eq in Hc as ->.
Qed.

Lemma safeParse_describes (o : list (string * Json)) (e : AgentMentioned) :
  AgentMentionedSchema_safeParse (JsJson (JObj o)) = Some e <-> Describes o e.
Proof.
  split.
  - unfold AgentMentionedSchema_safeParse, Zod.string_max, Zod.string_,
      Zod.nullish, Zod.optional, Zod.number, Describes.
    repeat (match goal with
            | |- context [match get ?k o with _ => _ end] =>
                destruct (get k o) as [[]|] eqn:?
            | |- context [if ?b then _ else _] => destruct b eqn:?
            | |- context [match Zod.content_type_ ?x with _ => _ end] =>
                destruct (Zod.content_type_ x) eqn:?
            end; try discriminate).
    all: intros H; inversion H; subst; cbn;
      repeat match goal with
             | H : (_ <=? _)%nat = true |- _ => apply Nat.leb_le in H
             | H : Zod.content_type_ _ = Some _ |- _ =>
                 apply content_type_literal in H
             end; repeat split; auto.
  - intros (H1 & L1 & H2 & L2 & H3 & H4 & H5 & H6 & H7 & H8 & H9 & H10 & H11).
    unfold AgentMentionedSchema_safeParse, Zod.string_max, Zod.string_,
      Zod.nullish, Zod.optional, Zod.number.
    rewrite H1, H2, H3, H4, H5, H6, H8, H9, H11.
    apply Nat.leb_le in L1, L2. rewrite L1, L2.
    destruct e as [cid pn pu title ou os cu ct tid cm au]; cbn in *.
    assert (Hcu : Zod.nullish
                    (fun v => match v with Some (JStr s) => Some s | _ => None end)
                    (get "content_url" o) = Some cu).
    { destruct cu as [u|];
        [now rewrite H7 | destruct H7 as [H7|H7]; now rewrite H7]. }
    unfold Zod.nullish in Hcu. rewrite Hcu.
    destruct ct; destruct cm as [c|]; rewrite H10; reflexivity.
Qed.

(** X6. On bodies whose numbers are integers, the schema accepts an object
    as the event [e] exactly when the object holds [e] member by member: the
    six strings, community_id and profile_name of at most 255 UTF-16 code
    units, content_type "thread" or "comment", the numeric thread_id and
    author_user_id, a comment_id that is a number or missing, and a
    content_url that is a string, missing or null. *)
Theorem schema_accepts_exactly (o : list (string * Json)) (e : AgentMentioned) :
  AgentMentionedSchema_safeParse (JsJson (JObj o)) = Some e <-> Describes o e.
Proof. apply safeParse_describes. Qed.

(** X7. Round trip: every event whose community_id and profile_name have at
    most 255 bytes, hence at most 255 code units, is parsed back from the
    object that holds it. *)
Theorem schema_round_trip (e : AgentMentioned) :
  (String.length (community_id e) <= 255)%nat ->
  (String.length (profile_name e) <= 255)%nat ->
  AgentMentionedSchema_safeParse (JsJson (JObj (AgentMentioned_toJson e))) = Some e.
Proof.
  intros L1 L2. apply safeParse_describes.
  pose proof (length_le_bytes (community_id e)) as B1.
  pose proof (length_le_bytes (profile_name e)) as B2.
  assert (U1 : (JS.length (community_id e) <= 255)%nat) by lia.
  assert (U2 : (JS.length (profile_name e) <= 255)%nat) by lia.
  clear L1 L2 B1 B2.
  destruct e as [cid pn pu title ou os [u|] ct tid [c|] au]; cbn in *;
    repeat split; first [assumption | reflexivity | left; reflexivity].
Qed.

(** X8. Members the schema does not name are ignored: two objects that agree
    on the eleven members of the schema parse alike. *)
Theorem schema_ignores_unknown_members (o o' : list (string * Json)) :
  (forall k, In k schema_keys -> get k o = get k o') ->
  AgentMentionedSchema_safeParse (JsJson (JObj o))
  = AgentMentionedSchema_safeParse (JsJson (JObj o')).
Proof.
  intros H. unfold AgentMentionedSchema_safeParse.
  repeat match goal with
         | |- context [get ?k o] => rewrite (H k) by (cbn; tauto)
         end.
  reflexivity.
Qed.

(** X9. Edges of the schema: a comment_id of null is rejected, a content_url
    of null is accepted and reads as absent, and a community_id or a
    profile_name of more than 255 UTF-16 code units is rejected. *)
Theorem schema_edges (o : list (string * Json)) :
  (get "comment_id" o = Some JNull ->
   AgentMentionedSchema_safeParse (JsJson (JObj o)) = None)
  /\ (forall e, get "content_url" o = Some JNull ->
                AgentMentionedSchema_safeParse (JsJson (JObj o)) = Some e ->
                content_url e = None)
  /\ (forall s, get "community_id" o = Some (JStr s) ->
                (255 < JS.length s)%nat ->
                AgentMentionedSchema_safeParse (JsJson (JObj o)) = None)
  /\ (forall s, get "profile_name" o = Some (JStr s) ->
                (255 < JS.length s)%nat ->
                AgentMentionedSchema_safeParse (JsJson (JObj o)) = None).
Proof.
  repeat split.
  - intros Hnull.
    destruct (AgentMentionedSchema_safeParse (JsJson (JObj o))) as [e|] eqn:He;
      [|reflexivity].
    apply safeParse_describes in He.
    destruct He as (_ & _ & _ & _ & _ & _ & _ & _ & _ & _ & _ & Hc & _).
    rewrite Hnull in Hc. destruct (comment_id e); discriminate.
  - intros e Hnull He. apply safeParse_describes in He.
    destruct He as (_ & _ & _ & _ & _ & _ & _ & _ & Hu & _).
    rewrite Hnull in Hu. destruct (content_url e); [discriminate|reflexivity].
  - intros s Hs Hlong.
    destruct (AgentMentionedSchema_safeParse (JsJson (JObj o))) as [e|] eqn:He;
      [|reflexivity].
    apply safeParse_describes in He. destruct He as (H1 & L1 & _).
    rewrite Hs in H1. inversion H1; subst. lia.
  - intros s Hs Hlong.
    destruct (AgentMentionedSchema_safeParse (JsJson (JObj o))) as [e|] eqn:He;
      [|reflexivity].
    apply safeParse_describes in He. destruct He as (_ & _ & H2 & L2 & _).
    rewrite Hs in H2. inversion H2; subst. lia.
Qed.

(* ===================================================================== *)
(** * Further properties of the normalizer and of the route *)
(* ===================================================================== *)

Lemma result_try_catch {C A} (m : M C A) (h : JS.Error -> M C A) :
  result (try_catch m h)
  = match result m with Ok a => Ok a | Throw e => result (h e) end.
Proof.
  destruct m as [t [a|e]]; cbn [try_catch result snd]; [reflexivity|].
  now destruct (h e).
Qed.

Lemma result_bind {C A B} (m : M C A) (k : A -> M C B) :
  result (bind m k)
  = match result m with Ok a => result (k a) | Throw e => Throw e end.
Proof.
  destruct m as [t [a|e]]; cbn [bind result snd]; [|reflexivity].
  now destruct (k a).
Qed.

Section Answers.

Context {node : Node} {core : ElizaCore} {runtime : IAgentRuntime}
        {commonApiClient : CommonApiClient} {templates : Templates}.
Variable this : MessageManager.
Variable config : CommonEnv.

Lemma delivered_result now parsed content :
  result (try_catch (deliver this now parsed content) internal_error)
  = match result (handleMessage this now
                    {| event := parsed; full_object_text := content |}) with
    | Ok _ => Ok (send 200 Empty)
    | Throw _ => Ok (send 500 (JsonError "Internal server error"))
    end.
Proof.
  rewrite result_try_catch. unfold deliver. rewrite result_bind.
  now destruct (result (handleMessage _ _ _)).
Qed.

(** Every way [_handleCommonEvent] can end. *)
Lemma handleCommonEvent_result now parsed :
  (exists content,
      Normalized parsed content
      /\ result (_handleCommonEvent this now parsed)
         = match result (handleMessage this now
                           {| event := parsed; full_object_text := content |}) with
           | Ok _ => Ok (send 200 Empty)
           | Throw _ => Ok (send 500 (JsonError "Internal server error"))
           end)
  \/ ((forall content, ~ Normalized parsed content)
      /\ (result (_handleCommonEvent this now parsed)
          = Ok (send 400 (JsonError "Failed to fetch content from the provided URL"))
          \/ result (_handleCommonEvent this now parsed)
             = Ok (send 500 (JsonError "Internal server error")))).
Proof.
  destruct (JS.truthy_string (content_url parsed)) eqn:Htruthy.
  - destruct (content_url parsed) as [url|] eqn:Hurl; [|discriminate].
    assert (Hne : url <> "") by (intros ->; discriminate).
    destruct (fetch url) as [resp|e] eqn:Hfetch.
    + destruct (ok resp) eqn:Hok.
      * destruct (text resp) as [content|e] eqn:Htext.
        -- left. exists content. split.
           ++ right. exists url, resp. auto.
           ++ rewrite (handleCommonEvent_fetched this now parsed url resp content)
                by assumption.
              cbn [result snd]. apply delivered_result.
        -- right. split.
           ++ intros content [[Hf _] | (u & r & Hu & _ & Hr & _ & Ht)].
              ** rewrite Hurl, Htruthy in Hf. discriminate.
              ** assert (u = url) by congruence; subst u.
                 assert (r = resp) by congruence; subst r. congruence.
           ++ right.
              rewrite (handleCommonEvent_fetches this now parsed url Hurl Hne).
              now rewrite Hfetch, try_catch_call_ok, Hok, Htext.
      * right. split.
        -- intros content [[Hf _] | (u & r & Hu & _ & Hr & Ho & _)].
           ++ rewrite Hurl, Htruthy in Hf. discriminate.
           ++ assert (u = url) by congruence; subst u.
              assert (r = resp) by congruence; subst r. congruence.
        -- left.
           now rewrite (handleCommonEvent_fetch_failed this now parsed url resp).
    + right. split.
      * intros content [[Hf _] | (u & r & Hu & _ & Hr & _)].
        -- rewrite Hurl, Htruthy in Hf. discriminate.
        -- assert (u = url) by congruence; subst u. congruence.
      * right. rewrite (handleCommonEvent_fetches this now parsed url Hurl Hne).
        now rewrite Hfetch.
  - left. exists (object_summary parsed). split; [now left|].
    rewrite (handleCommonEvent_summary this now parsed Htruthy).
    apply delivered_result.
Qed.

Lemma Normalized_unique parsed content content' :
  Normalized parsed content -> Normalized parsed content' -> content = content'.
Proof.
  intros [[Hf ->] | (u & r & Hu & Hne & Hr & _ & Ht)]
         [[Hf' ->] | (u' & r' & Hu' & Hne' & Hr' & _ & Ht')]; try reflexivity.
  - rewrite Hu' in Hf. destruct u'; [congruence | discriminate].
  - rewrite Hu in Hf'. destruct u; [congruence | discriminate].
  - assert (u' = u) by congruence; subst u'.
    assert (r' = r) by congruence; subst r'. congruence.
Qed.

Lemma handleCommonEvent_answers now parsed :
  exists r,
    result (_handleCommonEvent this now parsed) = Ok r
    /\ (r = send 200 Empty
        \/ r = send 400 (JsonError "Failed to fetch content from the provided URL")
        \/ r = send 500 (JsonError "Internal server error")).
Proof.
  destruct (handleCommonEvent_result now parsed)
    as [(content & _ & ->) | (_ & [-> | ->])]; eauto.
  destruct (result (handleMessage _ _ _)); eauto.
Qed.

(** X10. [_handleCommonEvent] never throws: whatever the fetch, the runtime,
    the model and Common answer, it ends with a response, and the response
    is 200 with an empty body, 400 "Failed to fetch content from the
    provided URL" or 500 "Internal server error". *)
Theorem normalizer_always_answers now parsed :
  exists r,
    result (_handleCommonEvent this now parsed) = Ok r
    /\ (r = send 200 Empty
        \/ r = send 400 (JsonError "Failed to fetch content from the provided URL")
        \/ r = send 500 (JsonError "Internal server error")).
Proof. apply handleCommonEvent_answers. Qed.

(** X11. The answer is 200 exactly when the full text of the event was
    obtained, from the summary or from a successful fetch, and
    [handleMessage] completed on the event with that text. *)
Theorem normalizer_200_exactly_when now parsed :
  result (_handleCommonEvent this now parsed) = Ok (send 200 Empty)
  <-> exists content,
       Normalized parsed content
       /\ result (handleMessage this now
                    {| event := parsed; full_object_text := content |}) = Ok tt.
Proof.
  split.
  - intros H200.
    destruct (handleCommonEvent_result now parsed)
      as [(content & Hn & Hr) | (_ & [Hr | Hr])];
      rewrite Hr in H200; try discriminate.
    exists content. split; [exact Hn|].
    destruct (result (handleMessage _ _ _)) as [[]|]; [reflexivity|discriminate].
  - intros (content & Hn & Hok).
    destruct (handleCommonEvent_result now parsed)
      as [(content' & Hn' & Hr) | (Hnone & _)].
    + rewrite Hr, <- (Normalized_unique parsed content content' Hn Hn').
      now rewrite Hok.
    + now destruct (Hnone content).
Qed.

(** X12. When the fetch of a non-empty content_url rejects, or the body of
    its successful response cannot be read, the answer is 500, exactly one
    fetch was made and the message handler was not entered. *)
Theorem normalizer_fetch_throws now parsed url e :
  content_url parsed = Some url -> url <> "" ->
  fetch url = Throw e
  \/ (exists resp, fetch url = Ok resp /\ ok resp = true /\ text resp = Throw e) ->
  _handleCommonEvent this now parsed
  = ([Fetch url; ElizaLogger error "❌ [ERROR] Error processing request:"],
     Ok (send 500 (JsonError "Internal server error"))).
Proof.
  intros Hurl Hne Hthrow.
  rewrite (handleCommonEvent_fetches this now parsed url Hurl Hne).
  destruct Hthrow as [Hf | (resp & Hf & Hok & Ht)]; rewrite Hf.
  - reflexivity.
  - now rewrite try_catch_call_ok, Hok, Ht.
Qed.

Lemma post_webhook_not_next now later req :
  (forall p, result (_validateWebhook config now req) <> Ok (Next p)) ->
  fst (post_webhook this config now later req)
  = trace (_validateWebhook config now req)
  /\ match result (_validateWebhook config now req) with
     | Ok (Respond r) => snd (post_webhook this config now later req) = r
     | _ => snd (post_webhook this config now later req) = send 500 DefaultErrorPage
     end.
Proof.
  intros Hno. unfold post_webhook.
  destruct (_validateWebhook config now req) as [t [[p|r]|e]];
    cbn [trace result fst snd] in *.
  - now destruct (Hno p).
  - run. now rewrite app_nil_r.
  - now run.
Qed.

(** X13. When the verifier does not call next(), the route makes no call but
    at most one warning of the logger: nothing is fetched, recorded,
    generated or published; and the status of the response is 400, 401 or
    500. *)
Theorem route_rejected_only_logs now later req :
  (forall p, result (_validateWebhook config now req) <> Ok (Next p)) ->
  (fst (post_webhook this config now later req) = []
   \/ exists msg,
       fst (post_webhook this config now later req) = [ElizaLogger warn msg])
  /\ (statusCode (snd (post_webhook this config now later req)) = 400
      \/ statusCode (snd (post_webhook this config now later req)) = 401
      \/ statusCode (snd (post_webhook this config now later req)) = 500).
Proof.
  intros Hno.
  destruct (post_webhook_not_next now later req Hno) as [Htrace Hres].
  rewrite Htrace. split; [apply validateWebhook_trace|].
  destruct (result (_validateWebhook config now req)) as [[p|r]|e] eqn:Hr;
    rewrite Hres; auto.
  destruct (AgentMentionedSchema_safeParse (body req)) as [p|] eqn:Hp.
  - destruct (validateWebhook_401 config now req p r Hp Hr) as [-> | ->]; auto.
  - rewrite (validateWebhook_invalid config now req Hp) in Hr.
    inversion Hr. auto.
Qed.

(** X14. When the verifier calls next(), the route runs [_handleCommonEvent]
    on the parsed body and its response is the handler's. *)
Theorem route_accepted_runs_handler now later req p :
  result (_validateWebhook config now req) = Ok (Next p) ->
  exists r,
    result (_handleCommonEvent this later p) = Ok r
    /\ post_webhook this config now later req
       = ((trace (_validateWebhook config now req)
           ++ trace (_handleCommonEvent this later p))%list, r).
Proof.
  intros Hv. destruct (handleCommonEvent_answers later p) as (r & Hh & _).
  exists r. split; [exact Hh|]. unfold post_webhook.
  destruct (_validateWebhook config now req) as [t v].
  cbn [trace result fst snd] in *. subst v. run.
  now rewrite Hh.
Qed.

End Answers.

(* ===================================================================== *)
(** * Further properties of the message manager *)
(* ===================================================================== *)

Section Runs.

Context {node : Node} {core : ElizaCore} {runtime : IAgentRuntime}
        {commonApiClient : CommonApiClient} {templates : Templates}.
Variable this : MessageManager.

(** All runs of [handleMessage], examined one by one. *)
Lemma handleMessage_runs now message ids :
  _generateMemoryIds this (Some message) None = Some ids ->
  ((count is_CreateComment (trace (handleMessage this now message)) <= 1)%nat
   /\ (count is_CreateMemory (trace (handleMessage this now message)) <= 2)%nat
   /\ (count is_Evaluate (trace (handleMessage this now message)) <= 1)%nat)
  /\ (result (handleMessage this now message) = Ok tt ->
      exists state b,
        list.last (trace (handleMessage this now message))
        = Some (Evaluate (inboundMemory now message ids) state b)
        /\ count is_CreateComment (trace (handleMessage this now message))
           = (if b then 1 else 0)%nat
        /\ count is_CreateMemory (trace (handleMessage this now message))
           = (if b then 2 else 1)%nat).
Proof.
  intros Hids.
  unfold handleMessage. rewrite Hids.
  unfold destructure, response_text, _generateResponse,
    _shouldRespond, elizaLogger.
  all_runs.
  all: unfold call; cbn [trace result fst snd].
  all: (split; [cbn; lia|]).
  all: intros Hok; try discriminate Hok.
  all: try (eexists; exists false; repeat split; reflexivity).
  all: try (eexists; exists true; repeat split; reflexivity).
Qed.

(** X15. In every run, whatever the collaborators answer, [handleMessage]
    publishes at most one comment, creates at most two memories and calls
    the evaluation hook at most once. *)
Theorem manager_call_bounds now (message : AugmentedAgentMentioned) :
  (count is_CreateComment (trace (handleMessage this now message)) <= 1)%nat
  /\ (count is_CreateMemory (trace (handleMessage this now message)) <= 2)%nat
  /\ (count is_Evaluate (trace (handleMessage this now message)) <= 1)%nat.
Proof.
  destruct (generateMemoryIds_event this message) as (ids & Hids & _).
  exact (proj1 (handleMessage_runs now message ids Hids)).
Qed.

(** X16. A run of [handleMessage] that completes ends with the evaluation
    hook on the inbound memory, with didRespond true exactly when a comment
    was published: one comment and two memories then, no comment and one
    memory otherwise. *)
Theorem manager_completed_run now (message : AugmentedAgentMentioned) ids :
  _generateMemoryIds this (Some message) None = Some ids ->
  result (handleMessage this now message) = Ok tt ->
  exists state b,
    list.last (trace (handleMessage this now message))
    = Some (Evaluate (inboundMemory now message ids) state b)
    /\ count is_CreateComment (trace (handleMessage this now message))
       = (if b then 1 else 0)%nat
    /\ count is_CreateMemory (trace (handleMessage this now message))
       = (if b then 2 else 1)%nat.
Proof.
  intros Hids. exact (proj2 (handleMessage_runs now message ids Hids)).
Qed.

Lemma handleMessage_publish_fails now message ids state generated e :
  recorded this now message ids state ->
  result (_shouldRespond this message state) = Ok true ->
  generateMessageResponse (messageHandlerContext state) = Ok (Some generated) ->
  databaseAdapter_log (inboundMemory now message ids)
                      (messageHandlerContext state) generated = Ok tt ->
  comment_createComment (thread_id message) (Content.text generated)
                        (comment_id message) = Throw e ->
  handleMessage this now message
  = ((recording this now message ids
      ++ trace (_shouldRespond this message state)
      ++ [ElizaLogger debug "[Common Client] Generating response";
          GenerateMessageResponse (messageHandlerContext state);
          DatabaseLog (inboundMemory now message ids)
                      (messageHandlerContext state) generated;
          CreateComment (thread_id message) (Content.text generated)
                        (comment_id message)])%list,
     Throw e).
Proof.
  intros (Hids & Hec & Hcm & Hcs) Hyes Hgen Hlog Hpost.
  unfold handleMessage. rewrite Hids. unfold destructure.
  rewrite bind_ret_l, Hec, Hcm, Hcs. run.
  destruct (_shouldRespond this message state) as [t r].
  simpl in Hyes. subst r. run.
  fold (messageHandlerContext state).
  unfold _generateResponse, elizaLogger. rewrite Hgen. run.
  rewrite Hlog. run. unfold response_text. run.
  rewrite Hpost. now run.
Qed.

(** X17. When Common refuses the comment, [handleMessage] rejects with
    Common's error after the one attempt: the inbound memory stays the only
    memory created, the evaluation hook is not called, and the webhook
    handler answers 500. *)
Theorem manager_publish_failure
        now (message : AugmentedAgentMentioned) ids state generated e :
  recorded this now message ids state ->
  result (_shouldRespond this message state) = Ok true ->
  generateMessageResponse (messageHandlerContext state) = Ok (Some generated) ->
  databaseAdapter_log (inboundMemory now message ids)
                      (messageHandlerContext state) generated = Ok tt ->
  comment_createComment (thread_id message) (Content.text generated)
                        (comment_id message) = Throw e ->
  result (handleMessage this now message) = Throw e
  /\ count is_CreateComment (trace (handleMessage this now message)) = 1%nat
  /\ count is_CreateMemory (trace (handleMessage this now message)) = 1%nat
  /\ In (CreateMemory (inboundMemory now message ids))
        (trace (handleMessage this now message))
  /\ count is_Evaluate (trace (handleMessage this now message)) = 0%nat
  /\ result (try_catch (deliver this now message (full_object_text message))
                       internal_error)
     = Ok (send 500 (JsonError "Internal server error")).
Proof.
  intros Hrec Hyes Hgen Hlog Hpost.
  pose proof (handleMessage_publish_fails now message ids state generated e
                Hrec Hyes Hgen Hlog Hpost) as Hrun.
  rewrite Hrun. cbn [trace result fst snd].
  split; [reflexivity|].
  rewrite !count_app, !(shouldRespond_calls this) by reflexivity.
  repeat split; try reflexivity.
  - rewrite in_app_iff. left. unfold recording. cbn. auto.
  - unfold deliver. destruct message as [parsed content].
    cbn [event full_object_text] in *. now rewrite Hrun.
Qed.

(** X18. The event Common sends about the agent's own reply derives the
    very identity under which the reply was recorded: for a comment event
    written by the agent whose comment_id, community_id and thread_id are
    those of the created comment, [_generateMemoryIds] gives the same room,
    user and message ids for the event as for the reply. *)
Theorem own_reply_has_the_reply_identity (m : AugmentedAgentMentioned)
        (res : CreateCommentResponse.t) :
  author_user_id m = commonUserId this ->
  content_type m = comment ->
  comment_id m = Some (CreateCommentResponse.id res) ->
  CreateCommentResponse.id res <> 0 ->
  community_id m = CreateCommentResponse.community_id res ->
  thread_id m = CreateCommentResponse.thread_id res ->
  _generateMemoryIds this (Some m) None = _generateMemoryIds this None (Some res).
Proof.
  intros Ha Ht Hc Hz Hcom Hth. unfold _generateMemoryIds.
  rewrite Ha, Z.eqb_refl, Ht, Hc, Hcom, Hth. unfold JS.or_number.
  apply Z.eqb_neq in Hz. now rewrite Hz.
Qed.

End Runs.

(* ===================================================================== *)
(** * Properties of the configuration *)
(* ===================================================================== *)

(** X19. [validateCommonConfig] resolves exactly when a non-empty API key
    is found, and the key it returns is the runtime's setting when that is
    non-empty, else the environment variable. *)
Theorem validateCommonConfig_succeeds_exactly_when
        (getSetting env : string -> option string) (c : Environment.CommonConfig) :
  snd (Environment.validateCommonConfig getSetting env) = inl c
  <-> Environment.COMMON_API_KEY c <> ""
      /\ (getSetting "COMMON_API_KEY" = Some (Environment.COMMON_API_KEY c)
          \/ (JS.truthy_string (getSetting "COMMON_API_KEY") = false
              /\ env "COMMON_API_KEY" = Some (Environment.COMMON_API_KEY c))).
Proof.
  destruct c as [key]. cbn [Environment.COMMON_API_KEY].
  unfold Environment.validateCommonConfig, Environment.or_,
    Environment.commonEnvSchema_parse.
  destruct (getSetting "COMMON_API_KEY") as [[|a s]|];
    destruct (env "COMMON_API_KEY") as [[|b t]|];
    cbn; (split; [intros H; inversion H; subst;
                  solve [split; [discriminate | tauto]]
                 |intros [Hne [H | [Hf H]]]; try discriminate;
                  inversion H; subst; solve [reflexivity | congruence]]).
Qed.

(** X20. When neither the setting nor the environment variable holds a
    non-empty key, [validateCommonConfig] logs the failure and rejects with
    the message "Common configuration validation failed:", a line feed,
    and "COMMON_API_KEY: Required" when the variable is missing or
    "COMMON_API_KEY: Common API key is required" when it is empty. *)
Theorem validateCommonConfig_failure_message
        (getSetting env : string -> option string) :
  JS.truthy_string (getSetting "COMMON_API_KEY") = false ->
  JS.truthy_string (env "COMMON_API_KEY") = false ->
  Environment.validateCommonConfig getSetting env
  = ([(debug, "Validating Common configuration with runtime settings");
      (debug, "Parsing configuration with schema");
      (error, "Configuration validation failed:")],
     inr ("Common configuration validation failed:" ++ Environment.newline
          ++ "COMMON_API_KEY: "
          ++ match env "COMMON_API_KEY" with
             | Some _ => "Common API key is required"
             | None => "Required"
             end)).
Proof.
  intros Hs He. unfold Environment.validateCommonConfig, Environment.or_.
  rewrite Hs.
  destruct (env "COMMON_API_KEY") as [[|b t]|]; try discriminate; reflexivity.
Qed.

Lemma record_of_strings_lookup o r k :
  record_of_strings o = Some r ->
  (list_to_map r : gmap string string) !! k
  = match get k o with Some (JStr v) => Some v | _ => None end.
Proof.
  revert r. induction o as [|[k' j] o IH]; intros r; cbn.
  - intros H. inversion H. reflexivity.
  - destruct j; try discriminate.
    destruct (record_of_strings o) as [r'|]; [|discriminate].
    intros H. inversion H; subst r. cbn.
    destruct (String.eqb k k') eqn:Hk.
    + apply String.eqb_eq in Hk as ->. now rewrite lookup_insert_eq.
    + apply String.eqb_neq in Hk. rewrite lookup_insert_ne by congruence.
      now apply IH.
Qed.

Lemma record_of_strings_all o r k j :
  record_of_strings o = Some r -> get k o = Some j -> exists v, j = JStr v.
Proof.
  revert r. induction o as [|[k' j'] o IH]; intros r; cbn; [discriminate|].
  destruct j'; try discriminate.
  destruct (record_of_strings o) as [r'|]; [|discriminate].
  intros _. destruct (String.eqb k k').
  - intros H. inversion H. eauto.
  - now apply (IH r').
Qed.

Section ConfigSchema.

Context {builtins : Builtins}.

Lemma CommonEnvSchema_parse_ok raw cfg :
  CommonEnvSchema_parse raw = Some cfg ->
  raw_COMMON_API_KEY raw = Some (COMMON_API_KEY cfg)
  /\ COMMON_API_KEY cfg <> ""
  /\ raw_COMMON_WALLET_ADDRESS raw = Some (COMMON_WALLET_ADDRESS cfg)
  /\ COMMON_WALLET_ADDRESS cfg <> ""
  /\ COMMON_API_URL cfg = raw_COMMON_API_URL raw
  /\ (raw_COMMON_WEBHOOK_PORT raw = None -> COMMON_WEBHOOK_PORT cfg = 3001)
  /\ (raw_COMMON_WEBHOOK_SIGNING_KEYS raw = None
      <-> COMMON_WEBHOOK_SIGNING_KEYS cfg = None).
Proof.
  unfold CommonEnvSchema_parse, string_min1.
  destruct (raw_COMMON_API_KEY raw) as [[|a k]|]; try discriminate.
  destruct (raw_COMMON_WALLET_ADDRESS raw) as [[|b w]|]; try discriminate.
  cbn.
  destruct (raw_COMMON_WEBHOOK_PORT raw) as [p|].
  - destruct (Number_ p); [|discriminate].
    destruct (raw_COMMON_WEBHOOK_SIGNING_KEYS raw) as [s|].
    + destruct (signingKeys_parse s); [|discriminate].
      intros H; inversion H; cbn. repeat split; try discriminate.
    + intros H; inversion H; cbn. repeat split; try discriminate.
  - destruct (raw_COMMON_WEBHOOK_SIGNING_KEYS raw) as [s|].
    + destruct (signingKeys_parse s); [|discriminate].
      intros H; inversion H; cbn. repeat split; try discriminate.
    + intros H; inversion H; cbn. repeat split; try discriminate.
Qed.

Lemma CommonEnvSchema_keys raw cfg s :
  CommonEnvSchema_parse raw = Some cfg ->
  raw_COMMON_WEBHOOK_SIGNING_KEYS raw = Some s ->
  exists o keys,
    JSON_parse s = Some (JObj o)
    /\ COMMON_WEBHOOK_SIGNING_KEYS cfg = Some keys
    /\ (forall k j, get k o = Some j -> exists v, j = JStr v)
    /\ (forall k v, keys !! k = Some v <-> get k o = Some (JStr v)).
Proof.
  unfold CommonEnvSchema_parse. intros H Hs. rewrite Hs in H.
  destruct (string_min1 _); [|discriminate].
  destruct (string_min1 _); [|discriminate].
  destruct (match raw_COMMON_WEBHOOK_PORT raw with
            | Some p => Number_ p | None => Some 3001 end); [|discriminate].
  unfold signingKeys_parse in H.
  destruct (JSON_parse s) as [[| | | | |o]|]; try discriminate.
  destruct (record_of_strings o) as [r|] eqn:Hr; [|discriminate].
  inversion H; subst cfg; cbn.
  exists o, (list_to_map r). repeat split; try reflexivity.
  - intros k j. now apply record_of_strings_all with r.
  - rewrite (record_of_strings_lookup o r k Hr).
    destruct (get k o) as [[]|]; congruence.
  - rewrite (record_of_strings_lookup o r k Hr).
    now intros ->.
Qed.

(** X21. A configuration that [CommonEnvSchema] accepts has a non-empty API
    key and a non-empty wallet address, taken from the input as they are;
    the webhook port is 3001 when none is given; and the signing keys are
    absent exactly when none are given. *)
Theorem config_invariants raw cfg :
  CommonEnvSchema_parse raw = Some cfg ->
  raw_COMMON_API_KEY raw = Some (COMMON_API_KEY cfg)
  /\ COMMON_API_KEY cfg <> ""
  /\ raw_COMMON_WALLET_ADDRESS raw = Some (COMMON_WALLET_ADDRESS cfg)
  /\ COMMON_WALLET_ADDRESS cfg <> ""
  /\ COMMON_API_URL cfg = raw_COMMON_API_URL raw
  /\ (raw_COMMON_WEBHOOK_PORT raw = None -> COMMON_WEBHOOK_PORT cfg = 3001)
  /\ (raw_COMMON_WEBHOOK_SIGNING_KEYS raw = None
      <-> COMMON_WEBHOOK_SIGNING_KEYS cfg = None).
Proof. apply CommonEnvSchema_parse_ok. Qed.


(** X23. Signing keys that are given but are not JSON, or not an object, or
    hold a member that is no string, make the configuration fail: they are
    never taken for absent keys. *)
Theorem config_bad_signing_keys_fail raw s :
  raw_COMMON_WEBHOOK_SIGNING_KEYS raw = Some s ->
  JSON_parse s = None
  \/ (exists j, JSON_parse s = Some j /\ forall o, j <> JObj o)
  \/ (exists o k j,
         JSON_parse s = Some (JObj o) /\ get k o = Some j
         /\ forall v, j <> JStr v) ->
  CommonEnvSchema_parse raw = None.
Proof.
  intros Hs Hbad.
  destruct (CommonEnvSchema_parse raw) as [cfg|] eqn:Hparse; [|reflexivity].
  destruct (CommonEnvSchema_keys raw cfg s Hparse Hs)
    as (o & keys & Hjson & _ & Hall & _).
  destruct Hbad as [Hnone | [(j & Hj & Hno) | (o' & k & j & Hj & Hget & Hno)]].
  - congruence.
  - rewrite Hjson in Hj. inversion Hj; subst j. now destruct (Hno o).
  - rewrite Hjson in Hj. inversion Hj; subst o'.
    destruct (Hall k j Hget) as [v ->]. now destruct (Hno v).
Qed.

(** X24. A configuration accepted without signing keys switches the
    verification off: every request whose body passes the schema is passed
    on, whatever its signature header, after one warning. *)
Theorem config_without_keys_skips_verification
        {node : Node} {core : ElizaCore} raw cfg now req p :
  CommonEnvSchema_parse raw = Some cfg ->
  raw_COMMON_WEBHOOK_SIGNING_KEYS raw = None ->
  AgentMentionedSchema_safeParse (body req) = Some p ->
  _validateWebhook cfg now req
  = ([ElizaLogger warn
        "Common Webhook signing keys not set. Skipping signature validation."],
     Ok (Next p)).
Proof.
  intros Hparse Hnone Hp.
  destruct (CommonEnvSchema_parse_ok raw cfg Hparse)
    as (_ & _ & _ & _ & _ & _ & Hkeys).
  apply Hkeys in Hnone. unfold _validateWebhook. now rewrite Hp, Hnone.
Qed.

End ConfigSchema.

(* ===================================================================== *)
(** * The further properties, on the concrete deployment *)
(* ===================================================================== *)

(** The bytes of the body, unparsed, fail the schema and are answered 400. *)
Lemma verifier_rejections_witness :
  @_validateWebhook Demo.node Demo.answering Demo.config Demo.now
    {| body := JsBuffer Demo.mention_payload;
       x_knock_signature := None;
       payload := Demo.mention_payload |}
  = ([ElizaLogger warn "Invalid request body: "],
     Ok (Respond (send 400 (JsonSchemaError "Invalid request body")))).
Proof.
  exact (proj1 (verifier_rejections (node:=Demo.node) (core:=Demo.answering)
                  Demo.config Demo.now
                  {| body := JsBuffer Demo.mention_payload;
                     x_knock_signature := None;
                     payload := Demo.mention_payload |}) eq_refl).
Defined.

(** The header that opens the door to the mention opens it to the body of
    another author. *)
Lemma verifier_binds_no_body_witness :
  let header := "t=2025-01-01T00:59:30.000Z,s=Q1TWynuJ0ZkVBq91OL3FRfkb8Ji1Nac1v7tiw92euqU=" in
  result (@_validateWebhook Demo.node Demo.answering Demo.config Demo.now
            {| body := JsJson Cases.other_body;
               x_knock_signature := Some header;
               payload := "" |})
  = Ok (Next Cases.other_event).
Proof.
  intros header.
  apply (verifier_binds_no_body (node:=Demo.node) (core:=Demo.answering)
           Demo.config Demo.now (Demo.request header)
           {| body := JsJson Cases.other_body;
              x_knock_signature := Some header;
              payload := "" |}
           Demo.mention Cases.other_event);
    reflexivity.
Defined.

(** The key of a second community changes nothing for the first. *)
Lemma verifier_other_tenants_witness :
  let req := Demo.request "t=2025-01-01T00:59:30.000Z,s=Q1TWynuJ0ZkVBq91OL3FRfkb8Ji1Nac1v7tiw92euqU=" in
  @_validateWebhook Demo.node Demo.answering Demo.config Demo.now req
  = @_validateWebhook Demo.node Demo.answering Cases.two_tenants Demo.now req.
Proof.
  intros req.
  apply (verifier_other_tenants (node:=Demo.node) (core:=Demo.answering)
           Demo.config Cases.two_tenants
           {[ "common" := Demo.signingKey ]}
           (<["other" := "whsec_other"]> {[ "common" := Demo.signingKey ]})
           Demo.now req Demo.mention);
    reflexivity.
Defined.

(** The mention is parsed back from the object that holds it. *)
Lemma schema_round_trip_witness :
  AgentMentionedSchema_safeParse
    (JsJson (JObj (AgentMentioned_toJson Demo.mention))) = Some Demo.mention.
Proof.
  apply (schema_round_trip Demo.mention); apply Nat.leb_le; reflexivity.
Defined.

(** A delivery counter beside the members of the mention. *)
Lemma schema_ignores_unknown_members_witness :
  AgentMentionedSchema_safeParse (JsJson (JObj Cases.mention_with_unknown_member))
  = AgentMentionedSchema_safeParse (JsJson Demo.mention_json).
Proof.
  apply (schema_ignores_unknown_members Cases.mention_with_unknown_member).
  intros k Hk. cbn in Hk.
  repeat (destruct Hk as [<- | Hk]; [reflexivity|]).
  destruct Hk.
Defined.

(** The mention with a comment_id of null. *)
Lemma schema_edges_witness :
  AgentMentionedSchema_safeParse
    (JsJson (JObj (("comment_id", JNull) :: AgentMentioned_toJson Demo.mention)))
  = None.
Proof.
  exact (proj1 (schema_edges
                  (("comment_id", JNull) :: AgentMentioned_toJson Demo.mention))
               eq_refl).
Defined.

(** The content of an overflowing event cannot be reached. *)
Lemma normalizer_fetch_throws_witness :
  @_handleCommonEvent Demo.node Demo.answering Demo.answeringRuntime Demo.api
    Demo.templates Demo.manager Demo.now Cases.unreachable
  = ([Fetch "https://r2.common.xyz/down";
      ElizaLogger error "❌ [ERROR] Error processing request:"],
     Ok (send 500 (JsonError "Internal server error"))).
Proof.
  apply (normalizer_fetch_throws (node:=Demo.node) (core:=Demo.answering)
           (runtime:=Demo.answeringRuntime) (commonApiClient:=Demo.api)
           (templates:=Demo.templates) Demo.manager Demo.now Cases.unreachable
           "https://r2.common.xyz/down" (JS.TypeError "fetch failed")).
  - reflexivity.
  - discriminate.
  - left. reflexivity.
Defined.

(** A request with the genuine signature, which the verifier turns away. *)
Lemma route_rejected_only_logs_witness :
  let req := Demo.request "t=2025-01-01T00:59:30.000Z,s=wdrnP1vMkFxa1K8ixLz8fIdf/gTMVsJdHV18B5CMiZE=" in
  let answer :=
    @post_webhook Demo.node Demo.answering Demo.answeringRuntime Demo.api
      Demo.templates Demo.manager Demo.config Demo.now Demo.now req in
  (fst answer = [] \/ exists msg, fst answer = [ElizaLogger warn msg])
  /\ (statusCode (snd answer) = 400 \/ statusCode (snd answer) = 401
      \/ statusCode (snd answer) = 500).
Proof.
  intros req answer.
  apply (route_rejected_only_logs (node:=Demo.node) (core:=Demo.answering)
           (runtime:=Demo.answeringRuntime) (commonApiClient:=Demo.api)
           (templates:=Demo.templates) Demo.manager Demo.config
           Demo.now Demo.now req).
  intros p. discriminate.
Defined.

(** The accepted mention reaches the handler. *)
Lemma route_accepted_runs_handler_witness :
  let req := Demo.request "t=2025-01-01T00:59:30.000Z,s=Q1TWynuJ0ZkVBq91OL3FRfkb8Ji1Nac1v7tiw92euqU=" in
  exists r,
    result (@_handleCommonEvent Demo.node Demo.answering Demo.answeringRuntime
              Demo.api Demo.templates Demo.manager Demo.now Demo.mention) = Ok r
    /\ @post_webhook Demo.node Demo.answering Demo.answeringRuntime Demo.api
         Demo.templates Demo.manager Demo.config Demo.now Demo.now req
       = ((trace (@_validateWebhook Demo.node Demo.answering Demo.config
                    Demo.now req)
           ++ trace (@_handleCommonEvent Demo.node Demo.answering
                       Demo.answeringRuntime Demo.api Demo.templates
                       Demo.manager Demo.now Demo.mention))%list, r).
Proof.
  intros req.
  apply (route_accepted_runs_handler (node:=Demo.node) (core:=Demo.answering)
           (runtime:=Demo.answeringRuntime) (commonApiClient:=Demo.api)
           (templates:=Demo.templates) Demo.manager Demo.config
           Demo.now Demo.now req Demo.mention).
  reflexivity.
Defined.

(** The answered mention: the run completes. *)
Lemma manager_completed_run_witness :
  let run :=
    @handleMessage Demo.node Demo.answering Demo.answeringRuntime Demo.api
      Demo.templates Demo.manager Demo.now (Demo.inFull Demo.mentionById) in
  exists (state : @State Demo.answering) b,
    list.last (trace run)
    = Some (Evaluate (@inboundMemory Demo.answering Demo.answeringRuntime
                        Demo.now (Demo.inFull Demo.mentionById) Demo.ids)
                     state b)
    /\ count is_CreateComment (trace run) = (if b then 1 else 0)%nat
    /\ count is_CreateMemory (trace run) = (if b then 2 else 1)%nat.
Proof.
  intros run.
  apply (manager_completed_run (node:=Demo.node) (core:=Demo.answering)
           (runtime:=Demo.answeringRuntime) (commonApiClient:=Demo.api)
           (templates:=Demo.templates) Demo.manager Demo.now
           (Demo.inFull Demo.mentionById) Demo.ids);
    reflexivity.
Defined.

(** Common refuses the reply to the mention. *)
Lemma manager_publish_failure_witness :
  let run :=
    @handleMessage Demo.node Demo.answering Demo.answeringRuntime Cases.refusing
      Demo.templates Demo.manager Demo.now (Demo.inFull Demo.mentionById) in
  result run = Throw (JS.TypeError "fetch failed")
  /\ count is_CreateComment (trace run) = 1%nat
  /\ count is_CreateMemory (trace run) = 1%nat
  /\ count is_Evaluate (trace run) = 0%nat.
Proof.
  intros run.
  destruct (manager_publish_failure
              (node:=Demo.node) (core:=Demo.answering)
              (runtime:=Demo.answeringRuntime) (commonApiClient:=Cases.refusing)
              (templates:=Demo.templates) Demo.manager Demo.now
              (Demo.inFull Demo.mentionById) Demo.ids
              ("hi [@agent](/profile/id/99)" : @State Demo.answering)
              Demo.reply (JS.TypeError "fetch failed"))
    as (Hr & Hc & Hm & _ & He & _).
  - repeat split.
  - reflexivity.
  - reflexivity.
  - reflexivity.
  - reflexivity.
  - repeat split; assumption.
Defined.

(** The event about comment 1001, the agent's reply. *)
Lemma own_reply_has_the_reply_identity_witness :
  @_generateMemoryIds Demo.answering Demo.answeringRuntime Demo.manager
    (Some (Demo.inFull Cases.ownComment)) None
  = @_generateMemoryIds Demo.answering Demo.answeringRuntime Demo.manager
      None (Some Cases.created).
Proof.
  apply (own_reply_has_the_reply_identity (core:=Demo.answering)
           (runtime:=Demo.answeringRuntime) Demo.manager
           (Demo.inFull Cases.ownComment) Cases.created);
    first [reflexivity | discriminate].
Defined.

(** Neither the runtime nor the environment knows the key. *)
Lemma validateCommonConfig_failure_message_witness :
  snd (Environment.validateCommonConfig Cases.nothing Cases.nothing)
  = inr ("Common configuration validation failed:" ++ Environment.newline
         ++ "COMMON_API_KEY: Required").
Proof.
  rewrite (validateCommonConfig_failure_message Cases.nothing Cases.nothing
             eq_refl eq_refl).
  reflexivity.
Defined.

(** The configuration of the examples, from the strings of its environment. *)
Lemma config_invariants_witness :
  COMMON_API_KEY Demo.config <> ""
  /\ COMMON_WALLET_ADDRESS Demo.config <> ""
  /\ COMMON_WEBHOOK_PORT Demo.config = 3001.
Proof.
  destruct (config_invariants (builtins:=Cases.builtins)
              (Cases.raw (Some Cases.keys_json)) Demo.config eq_refl)
    as (_ & Hk & _ & Hw & _ & Hp & _).
  split; [exact Hk|]. split; [exact Hw|]. exact (Hp eq_refl).
Defined.


(** Signing keys that are the JSON text of an array. *)
Lemma config_bad_signing_keys_fail_witness :
  @CommonEnvSchema_parse Cases.builtins (Cases.raw (Some "[]")) = None.
Proof.
  apply (config_bad_signing_keys_fail (builtins:=Cases.builtins)
           (Cases.raw (Some "[]")) "[]").
  - reflexivity.
  - right. left. exists (JArr []). split; [reflexivity|]. discriminate.
Defined.

(** No signing keys in the environment: a request with any header passes. *)
Lemma config_without_keys_skips_verification_witness :
  @_validateWebhook Demo.node Demo.answering
    {| COMMON_API_KEY := "api-key";
       COMMON_WALLET_ADDRESS := "0xA9e7";
       COMMON_API_URL := None;
       COMMON_WEBHOOK_PORT := 3001;
       COMMON_WEBHOOK_SIGNING_KEYS := None |}
    Demo.now (Demo.request "forged")
  = ([ElizaLogger warn
        "Common Webhook signing keys not set. Skipping signature validation."],
     Ok (Next Demo.mention)).
Proof.
  apply (config_without_keys_skips_verification
           (builtins:=Cases.builtins) (node:=Demo.node) (core:=Demo.answering)
           (Cases.raw None)); reflexivity.
Defined.

(** The header of the examples. *)
Lemma header_is_read_back_witness :
  @header_part Demo.answering
    "t=2025-01-01T00:59:30.000Z,s=Q1TWynuJ0ZkVBq91OL3FRfkb8Ji1Nac1v7tiw92euqU=" 0
  = ret "2025-01-01T00:59:30.000Z"
  /\ @header_part Demo.answering
       "t=2025-01-01T00:59:30.000Z,s=Q1TWynuJ0ZkVBq91OL3FRfkb8Ji1Nac1v7tiw92euqU=" 1
     = ret "Q1TWynuJ0ZkVBq91OL3FRfkb8Ji1Nac1v7tiw92euqU=".
Proof.
  apply (header_is_read_back (core:=Demo.answering)
           "2025-01-01T00:59:30.000Z"
           "Q1TWynuJ0ZkVBq91OL3FRfkb8Ji1Nac1v7tiw92euqU="
           "t"%char "="%char "s"%char "="%char);
    first [reflexivity | discriminate].
Defined.
